(** * Entry attributes of the [plugin] package

    A shallow embedding of [EntryAttributes] (presence-tracked attributes
    of an entry, their map projection and their JSON codec) together with
    the parts of the Go runtime that the code runs on: [float64] values as
    binary64 numbers, [time.Time] moments, [os.FileMode] rendering and the
    [encoding/json] generic decoder.

    Layout: data and operations first, results afterwards. *)

From Stdlib Require Import ZArith Bool Ascii String Lia SpecFloat.
From stdpp Require Import base option list strings gmap fin_maps.

Set Warnings "-register-all".
#[local] Open Scope Z_scope.

(** ** binary64 floating point: Go's [float64] *)

Module float64.

(** A [float64] is a binary64 number: the Standard Library's [spec_float]
    at precision 53, exponents of the unit in the last place between
    [emin] and [emax - 53]. *)
Abbreviation t := spec_float.

Definition emin : Z := -1074.

(** [round_ratio neg p q]: the binary64 number nearest to [p/q] (ties to
    even) with sign [neg], for [0 <= p] and [0 < q]; [None] when the
    rounded magnitude exceeds the largest finite binary64 number
    ([strconv.ParseFloat] then reports a range error). *)
Definition round_ratio (neg : bool) (p q : Z) : option t :=
  if p =? 0 then Some (S754_zero neg) else
  let d := Z.log2 p - Z.log2 q in
  let ex :=
    if (if 0 <=? d then q * 2 ^ d <=? p else q <=? p * 2 ^ (- d))
    then d else d - 1 in
  let u := Z.max (ex - 52) emin in
  let P := if 0 <=? u then p else p * 2 ^ (- u) in
  let Q := if 0 <=? u then q * 2 ^ u else q in
  let quo := P / Q in
  let rem := P mod Q in
  let up := (Q <? 2 * rem) || ((Q =? 2 * rem) && Z.odd quo) in
  let m := if up then quo + 1 else quo in
  let '(m, u) := if m =? 2 ^ 53 then (2 ^ 52, u + 1) else (m, u) in
  if m =? 0 then Some (S754_zero neg)
  else if 971 <? u then None
  else Some (S754_finite neg (Z.to_pos m) u).

(** Conversion of an integer to the nearest binary64 number. *)
Definition of_Z (n : Z) : option t := round_ratio (n <? 0) (Z.abs n) 1.

(** The integer part of a finite number (the fraction is discarded);
    [None] for infinities and NaN. *)
Definition trunc (f : t) : option Z :=
  match f with
  | S754_zero _ => Some 0
  | S754_finite neg m e =>
      let a := if 0 <=? e then Z.pos m * 2 ^ e else Z.pos m / 2 ^ (- e) in
      Some (if neg then - a else a)
  | S754_infinity _ | S754_nan => None
  end.

End float64.

(** ** Moments in time: Go's [time.Time] *)

Module time.

(** A moment is identified by its instant: whole seconds elapsed since
    January 1, year 1, 00:00:00 UTC and nanoseconds within the second.
    The location and the monotonic clock reading of a Go [Time] are
    presentation data and are not part of the model. *)
Record Time : Type := mkTime { sec : Z; nsec : Z }.

(** [Time{}], the zero moment. *)
Definition zero : Time := {| sec := 0; nsec := 0 |}.

Definition IsZero (t : Time) : bool := (sec t =? 0) && (nsec t =? 0).

Definition unixToInternal : Z := 62135596800.

Definition Unix (s ns : Z) : Time :=
  {| sec := s + ns / 1000000000 + unixToInternal; nsec := ns mod 1000000000 |}.

(** Proleptic Gregorian calendar; day 0 is January 1 of year 1. *)
Definition civil_from_days (days : Z) : Z * Z * Z :=
  let z := days + 306 in
  let era := z / 146097 in
  let doe := z mod 146097 in
  let yoe := (doe - doe / 1460 + doe / 36524 - doe / 146096) / 365 in
  let doy := doe - (365 * yoe + yoe / 4 - yoe / 100) in
  let mp := (5 * doy + 2) / 153 in
  let d := doy - (153 * mp + 2) / 5 + 1 in
  let m := if mp <? 10 then mp + 3 else mp - 9 in
  let y := yoe + era * 400 + (if m <=? 2 then 1 else 0) in
  (y, m, d).

Definition days_from_civil (y m d : Z) : Z :=
  let y' := if m <=? 2 then y - 1 else y in
  let era := y' / 400 in
  let yoe := y' mod 400 in
  let doy := (153 * (if 2 <? m then m - 3 else m + 9) + 2) / 5 + d - 1 in
  let doe := yoe * 365 + yoe / 4 - yoe / 100 + doy in
  era * 146097 + doe - 306.

Definition Year (t : Time) : Z := fst (fst (civil_from_days (sec t / 86400))).

Definition digit_char (d : Z) : ascii := ascii_of_N (Z.to_N (48 + d mod 10)).

(** [n] written with exactly [width] decimal digits (leading zeros). *)
Fixpoint pad (width : nat) (n : Z) (acc : string) : string :=
  match width with
  | O => acc
  | S w => pad w (n / 10) (String (digit_char n) acc)
  end.

(** The fractional second of layout [.999999999]: nothing for zero,
    otherwise the nine digits without their trailing zeros. *)
Fixpoint frac_digits (width : nat) (n : Z) : string :=
  match width with
  | O => EmptyString
  | S w => if n mod 10 =? 0 then frac_digits w (n / 10) else pad width n EmptyString
  end.

Definition frac (ns : Z) : string :=
  if ns =? 0 then EmptyString else String "." (frac_digits 9 ns).

(** [t.Format(time.RFC3339Nano)] of a moment shown in UTC. *)
Definition RFC3339Nano (t : Time) : string :=
  let '(y, m, d) := civil_from_days (sec t / 86400) in
  let s := sec t mod 86400 in
  pad 4 y (String "-" (pad 2 m (String "-" (pad 2 d (String "T"
    (pad 2 (s / 3600) (String ":" (pad 2 (s / 60 mod 60) (String ":"
      (pad 2 (s mod 60) (frac (nsec t) +:+ "Z"))))))))))).

(** [Time.MarshalJSON]: the RFC 3339 text, refused outside years
    0..9999. *)
Definition MarshalJSON (t : Time) : option string :=
  let y := Year t in
  if (y <? 0) || (10000 <=? y) then None else Some (RFC3339Nano t).

Definition digit_val (c : ascii) : option Z :=
  let n := Z.of_N (N_of_ascii c) in
  if (48 <=? n) && (n <=? 57) then Some (n - 48) else None.

(** Reads exactly [n] decimal digits. *)
Fixpoint read_digits (n : nat) (acc : Z) (s : string) : option (Z * string) :=
  match n with
  | O => Some (acc, s)
  | S n' =>
      match s with
      | String c s' =>
          match digit_val c with
          | Some d => read_digits n' (10 * acc + d) s'
          | None => None
          end
      | EmptyString => None
      end
  end.

Definition expect (c : ascii) (s : string) : option string :=
  match s with
  | String c' s' => if Ascii.eqb c c' then Some s' else None
  | EmptyString => None
  end.

(** Reads a run of at most [fuel] digits as a fraction of a second scaled
    to nanoseconds: [scale] is the weight of the next digit. *)
Fixpoint read_frac (fuel : nat) (scale acc : Z) (s : string) : Z * string :=
  match fuel, s with
  | S fuel', String c s' =>
      match digit_val c with
      | Some d => read_frac fuel' (scale / 10) (acc + d * scale) s'
      | None => (acc, s)
      end
  | _, _ => (acc, s)
  end.

Definition days_in_month (y m : Z) : Z :=
  days_from_civil (if m =? 12 then y + 1 else y) (if m =? 12 then 1 else m + 1) 1
  - days_from_civil y m 1.

(** [time.Parse(time.RFC3339, s)]: date, [T], time of day, an optional
    fraction of at most nine digits, then [Z] or a numeric offset. *)
Definition ParseRFC3339 (s : string) : option Time :=
  '(y, s) ← read_digits 4 0 s;
  s ← expect "-" s;
  '(m, s) ← read_digits 2 0 s;
  s ← expect "-" s;
  '(d, s) ← read_digits 2 0 s;
  s ← expect "T" s;
  '(hh, s) ← read_digits 2 0 s;
  s ← expect ":" s;
  '(mi, s) ← read_digits 2 0 s;
  s ← expect ":" s;
  '(ss, s) ← read_digits 2 0 s;
  '(ns, s) ← match s with
              | String "." (String c _ as s') =>
                  match digit_val c with
                  | Some _ => Some (read_frac 9 100000000 0 s')
                  | None => None
                  end
              | _ => Some (0, s)
              end;
  off ← match s with
         | String "Z" EmptyString => Some 0
         | String sign s' =>
             '(oh, s') ← read_digits 2 0 s';
             s' ← expect ":" s';
             '(om, s') ← read_digits 2 0 s';
             if negb (String.eqb s' EmptyString) || (24 <=? oh) || (60 <=? om) then None
             else if Ascii.eqb sign "+" then Some (oh * 3600 + om * 60)
             else if Ascii.eqb sign "-" then Some (- (oh * 3600 + om * 60))
             else None
         | EmptyString => None
         end;
  if (m <? 1) || (12 <? m) || (d <? 1) || (days_in_month y m <? d)
     || (24 <=? hh) || (60 <=? mi) || (60 <=? ss)
  then None
  else Some {| sec := days_from_civil y m d * 86400 + hh * 3600 + mi * 60 + ss - off;
               nsec := ns |}.

End time.

(** ** File modes: Go's [os.FileMode] *)

Module os.

(** A [FileMode] is a [uint32]. *)
Definition FileMode_of_Z (n : Z) : Z := n mod 2 ^ 32.

(** One character per bit from bit [top] downwards: the letter of
    [letters] where the bit is set; where it is clear, [-] when [dash]
    and nothing otherwise. *)
Fixpoint bit_letters (letters : string) (top : Z) (dash : bool) (m : Z) : string :=
  match letters with
  | EmptyString => EmptyString
  | String c rest =>
      let tl := bit_letters rest (top - 1) dash m in
      if Z.testbit m top then String c tl
      else if dash then String "-" tl else tl
  end.

(** [FileMode.String]: the type letters of the set high bits (a single
    [-] when there are none) followed by the nine permission letters. *)
Definition FileMode_String (m : Z) : string :=
  let ty := bit_letters "dalTLDpSugct?" 31 false m in
  (if String.eqb ty EmptyString then "-" else ty) +:+ bit_letters "rwxrwxrwx" 8 true m.

End os.

(** ** Dynamic values and errors *)

(** What a Go [interface{}] holds in this program: the kinds produced by
    the generic JSON decoder ([nil], [bool], [float64], [string],
    [[]interface{}], [map[string]interface{}]), the kinds that [ToMap]
    stores ([time.Time], [uint64], [os.FileMode], [string]) and plain
    structs with exported fields, which is what plugins hand to
    [SetMeta].  A map may be the [nil] map. *)
Inductive value : Type :=
| VNil
| VBool (b : bool)
| VFloat64 (f : float64.t)
| VString (s : string)
| VSlice (l : list value)
| VMap (m : option (gmap string value))
| VTime (t : time.Time)
| VUint64 (n : Z)
| VFileMode (m : Z)
| VStruct (fields : list (string * value)).

(** [type JSONObject = map[string]interface{}]; [None] is the [nil] map. *)
Abbreviation JSONObject := (option (gmap string value)).

(** [mp[k]] with the comma-ok form; a [nil] map has no entries. *)
Definition index (mp : JSONObject) (k : string) : option value :=
  m ← mp; m !! k.

(** An error built by [fmt.Errorf]: the format and its arguments.  The
    rendering of the message is left to [fmt]. *)
Inductive error : Type :=
| Errorf (format : string) (args : list fmt_arg)
with fmt_arg : Type :=
| ArgValue (v : value)
| ArgError (e : error).

(** A Go result pair [(x, err)]. *)
Inductive result (A : Type) : Type :=
| Ok (x : A)
| Err (e : error).
Arguments Ok {A} x.
Arguments Err {A} e.

#[global] Instance result_ret : MRet result := fun A x => Ok x.
#[global] Instance result_bind : MBind result := fun A B f r =>
  match r with Ok x => f x | Err e => Err e end.
#[global] Instance result_fmap : FMap result := fun A B f r =>
  match r with Ok x => Ok (f x) | Err e => Err e end.

(** A call either returns or panics. *)
Inductive outcome (A : Type) : Type :=
| Returns (x : A)
| Panics.
Arguments Returns {A} x.
Arguments Panics {A}.

(** ** The generic JSON codec: Go's [encoding/json] *)

Module json.

(** A number token denotes [(-1)^neg * digits * 10^exp10]. *)
Record number : Type := mkNumber { neg : bool; digits : N; exp10 : Z }.

Definition int (n : Z) : number :=
  {| neg := n <? 0; digits := Z.abs_N n; exp10 := 0 |}.

(** A JSON text.  An object lists its members in order and may repeat a
    name. *)
Inductive text : Type :=
| Null
| Bool (b : bool)
| Number (n : number)
| Str (s : string)
| Array (elems : list text)
| Object (members : list (string * text)).

(** A byte slice as the scanner sees it: not a JSON text at all, or the
    text it spells. *)
Inductive bytes : Type :=
| Invalid
| Valid (j : text).

(** [strconv.ParseFloat(s, 64)] on a number token; [None] is the range
    error. *)
Definition ParseFloat (n : number) : option float64.t :=
  if 0 <=? exp10 n
  then float64.round_ratio (neg n) (Z.of_N (digits n) * 10 ^ exp10 n) 1
  else float64.round_ratio (neg n) (Z.of_N (digits n)) (10 ^ (- exp10 n)).

(** A token that spells a finite [float64] exactly; [None] for
    infinities and NaN, which have no JSON form.  (Go prints the shortest
    token that reads back as the same number; both read back alike.) *)
Definition FormatFloat (f : float64.t) : option number :=
  match f with
  | S754_zero s => Some {| neg := s; digits := 0; exp10 := 0 |}
  | S754_finite s m e =>
      Some (if 0 <=? e
            then {| neg := s; digits := Z.to_N (Z.pos m * 2 ^ e); exp10 := 0 |}
            else {| neg := s; digits := Z.to_N (Z.pos m * 5 ^ (- e)); exp10 := e |})
  | S754_infinity _ | S754_nan => None
  end.

(** [json.Marshal]: the text of a value.  Members of a map are written
    once each (Go sorts them by name; decoding does not depend on the
    order).  Strings are taken to be valid UTF-8, which the encoder
    writes and the decoder reads back as they are. *)
Fixpoint Marshal (v : value) : result text :=
  match v with
  | VNil => Ok Null
  | VBool b => Ok (Bool b)
  | VFloat64 f =>
      match FormatFloat f with
      | Some n => Ok (Number n)
      | None => Err (Errorf "json: unsupported value: %v" [ArgValue v])
      end
  | VString s => Ok (Str s)
  | VSlice l =>
      Array <$>
        (fix elems (l : list value) : result (list text) :=
           match l with
           | [] => Ok []
           | x :: l' => j ← Marshal x; js ← elems l'; Ok (j :: js)
           end) l
  | VMap None => Ok Null
  | VMap (Some m) =>
      Object <$>
        map_fold (fun k x acc => j ← Marshal x; js ← acc; Ok ((k, j) :: js)) (Ok []) m
  | VTime t =>
      match time.MarshalJSON t with
      | Some s => Ok (Str s)
      | None =>
          Err (Errorf "json: error calling MarshalJSON for type time.Time: %v"
                 [ArgError (Errorf "Time.MarshalJSON: year outside of range [0,9999]" [])])
      end
  | VUint64 n => Ok (Number (int n))
  | VFileMode m => Ok (Number (int m))
  | VStruct fields =>
      Object <$>
        (fix members (l : list (string * value)) : result (list (string * text)) :=
           match l with
           | [] => Ok []
           | (k, x) :: l' => j ← Marshal x; js ← members l'; Ok ((k, j) :: js)
           end) fields
  end.

(** Decoding a text into an [interface{}]: numbers become [float64],
    objects become maps in which a repeated name keeps its last value.
    [None] when a number is out of the [float64] range. *)
Fixpoint decode (j : text) : option value :=
  match j with
  | Null => Some VNil
  | Bool b => Some (VBool b)
  | Number n => VFloat64 <$> ParseFloat n
  | Str s => Some (VString s)
  | Array l =>
      VSlice <$>
        (fix elems (l : list text) : option (list value) :=
           match l with
           | [] => Some []
           | x :: l' => v ← decode x; vs ← elems l'; Some (v :: vs)
           end) l
  | Object ms =>
      (fun m => VMap (Some m)) <$>
        (fix members (ms : list (string * text)) (acc : gmap string value)
           : option (gmap string value) :=
           match ms with
           | [] => Some acc
           | (k, x) :: ms' => v ← decode x; members ms' (<[k := v]> acc)
           end) ms ∅
  end.

(** Storing the members of an object into a map, in order. *)
Fixpoint decode_members (ms : list (string * text)) (acc : gmap string value)
  : option (gmap string value) :=
  match ms with
  | [] => Some acc
  | (k, x) :: ms' => v ← decode x; decode_members ms' (<[k := v]> acc)
  end.

(** [json.Unmarshal(data, &mp)] for [mp] of type [map[string]interface{}]:
    the map afterwards, or the error.  [null] sets the map to [nil]; an
    object stores its members into the existing map (a fresh one when it
    was [nil]); any other text, bytes that are not JSON and numbers out
    of range are errors. *)
Definition Unmarshal (data : bytes) (mp : JSONObject) : result JSONObject :=
  match data with
  | Invalid => Err (Errorf "invalid character" [])
  | Valid Null => Ok None
  | Valid (Object ms) =>
      match decode_members ms (default ∅ mp) with
      | Some m => Ok (Some m)
      | None =>
          Err (Errorf "json: cannot unmarshal number into Go value of type float64" [])
      end
  | Valid _ =>
      Err (Errorf "json: cannot unmarshal into Go value of type map[string]interface {}" [])
  end.

End json.

(** ** Collaborators outside the package *)

(** The [munge] package, the coercion service of entry attributes: its
    code is not part of the package under study, so the attribute codec
    is stated over any implementation of its two conversions. *)
Class Munge : Type := {
  ToTime : value -> result time.Time;
  ToSize : value -> result Z
}.

(** The conversion [uint32(f)] of a [float64] discards the fraction; the
    language leaves its result open when the integer part does not fit,
    so each target decides it. *)
Class Arch : Type := {
  uint32_out_of_range : float64.t -> Z
}.

(** [os.FileMode(raw)] for [raw] of type [float64]. *)
Definition FileMode_of_float64 {arch : Arch} (raw : float64.t) : Z :=
  match float64.trunc raw with
  | Some n =>
      if (0 <=? n) && (n <? 2 ^ 32) then n
      else os.FileMode_of_Z (uint32_out_of_range raw)
  | None => os.FileMode_of_Z (uint32_out_of_range raw)
  end.

(** ** Package [plugin] *)

Module plugin.

(** The [obj interface{}] argument of [SetMeta] and [ToJSONObject]: a byte
    slice, or any other value. *)
Inductive object : Type :=
| OfBytes (arr : json.bytes)
| OfValue (v : value).

(** [ToJSONObject] serializes [v] to a JSON object.  It panics if the
    serialization fails: [panic(err)] after [json.Marshal], [errz.Fatal]
    after [json.Unmarshal]. *)
Definition ToJSONObject (v : object) : outcome JSONObject :=
  let unmarshal (inrec : json.bytes) : outcome JSONObject :=
    match json.Unmarshal inrec None with
    | Err _ => Panics
    | Ok obj => Returns obj
    end in
  match v with
  | OfValue (VMap obj) => Returns obj
  | OfBytes arr => unmarshal arr
  | OfValue v' =>
      match json.Marshal v' with
      | Err _ => Panics
      | Ok inrec => unmarshal (json.Valid inrec)
      end
  end.

Record EntryAttributes : Type := mkEntryAttributes {
  atime : time.Time;
  mtime : time.Time;
  ctime : time.Time;
  mode : Z;
  hasMode : bool;
  size : Z;
  hasSize : bool;
  meta : JSONObject
}.

(** [EntryAttributes{}] *)
Definition empty : EntryAttributes :=
  {| atime := time.zero; mtime := time.zero; ctime := time.zero;
     mode := 0; hasMode := false; size := 0; hasSize := false; meta := None |}.

Definition HasAtime (a : EntryAttributes) : bool := negb (time.IsZero (atime a)).

Definition Atime (a : EntryAttributes) : time.Time := atime a.

Definition SetAtime (t : time.Time) (a : EntryAttributes) : EntryAttributes :=
  {| atime := t; mtime := mtime a; ctime := ctime a; mode := mode a;
     hasMode := hasMode a; size := size a; hasSize := hasSize a; meta := meta a |}.

Definition HasMtime (a : EntryAttributes) : bool := negb (time.IsZero (mtime a)).

Definition Mtime (a : EntryAttributes) : time.Time := mtime a.

Definition SetMtime (t : time.Time) (a : EntryAttributes) : EntryAttributes :=
  {| atime := atime a; mtime := t; ctime := ctime a; mode := mode a;
     hasMode := hasMode a; size := size a; hasSize := hasSize a; meta := meta a |}.

Definition HasCtime (a : EntryAttributes) : bool := negb (time.IsZero (ctime a)).

Definition Ctime (a : EntryAttributes) : time.Time := ctime a.

Definition SetCtime (t : time.Time) (a : EntryAttributes) : EntryAttributes :=
  {| atime := atime a; mtime := mtime a; ctime := t; mode := mode a;
     hasMode := hasMode a; size := size a; hasSize := hasSize a; meta := meta a |}.

Definition HasMode (a : EntryAttributes) : bool := hasMode a.

Definition Mode (a : EntryAttributes) : Z := mode a.

Definition SetMode (m : Z) (a : EntryAttributes) : EntryAttributes :=
  {| atime := atime a; mtime := mtime a; ctime := ctime a; mode := m;
     hasMode := true; size := size a; hasSize := hasSize a; meta := meta a |}.

Definition HasSize (a : EntryAttributes) : bool := hasSize a.

Definition Size (a : EntryAttributes) : Z := size a.

Definition SetSize (sz : Z) (a : EntryAttributes) : EntryAttributes :=
  {| atime := atime a; mtime := mtime a; ctime := ctime a; mode := mode a;
     hasMode := hasMode a; size := sz; hasSize := true; meta := meta a |}.

(** [SetMeta] stores [ToJSONObject(obj)]; a panic of [ToJSONObject]
    leaves the call without a result. *)
Definition SetMeta (obj : object) (a : EntryAttributes) : outcome EntryAttributes :=
  match ToJSONObject obj with
  | Panics => Panics
  | Returns o =>
      Returns {| atime := atime a; mtime := mtime a; ctime := ctime a; mode := mode a;
                 hasMode := hasMode a; size := size a; hasSize := hasSize a; meta := o |}
  end.

(** The body of [ToMap]; [Meta] is the method that the last branch
    calls. *)
Definition ToMap_body (Meta : EntryAttributes -> JSONObject)
    (a : EntryAttributes) (includeMeta : bool) : gmap string value :=
  let mp : gmap string value := ∅ in
  let mp := if HasAtime a then <["atime" := VTime (Atime a)]> mp else mp in
  let mp := if HasMtime a then <["mtime" := VTime (Mtime a)]> mp else mp in
  let mp := if HasCtime a then <["ctime" := VTime (Ctime a)]> mp else mp in
  let mp := if HasMode a
            then <["mode" := VString (os.FileMode_String (Mode a))]> mp else mp in
  let mp := if HasSize a then <["size" := VUint64 (Size a)]> mp else mp in
  let mp := if includeMeta then <["meta" := VMap (Meta a)]> mp else mp in
  mp.

(** [Meta] returns [a.ToMap(false)] when [a.meta] is [nil], and [a.meta]
    otherwise.  [ToMap(false)] does not call [Meta] again, which closes
    the recursion between the two methods. *)
Definition Meta (a : EntryAttributes) : JSONObject :=
  match meta a with
  | None => Some (ToMap_body (fun _ => None) a false)
  | Some m => Some m
  end.

Definition ToMap (a : EntryAttributes) (includeMeta : bool) : gmap string value :=
  ToMap_body Meta a includeMeta.

(** [MarshalJSON]: [ToMap(true)] with the mode replaced by its numeric
    form, handed to [json.Marshal]. *)
Definition MarshalJSON (a : EntryAttributes) : result json.bytes :=
  let m := ToMap a true in
  let m := if HasMode a then <["mode" := VFileMode (Mode a)]> m else m in
  json.Valid <$> json.Marshal (VMap (Some m)).

Definition attrMungeError (name : string) (err : error) : error :=
  Errorf "plugin.EntryAttributes.UnmarshalJSON: could not munge the %v attribute: %v"
    [ArgValue (VString name); ArgError err].

(** A stretch of a method with a pointer receiver and an [error] result:
    from the receiver before, the receiver after and the error returned
    ([None]: the stretch ran to its end), unless the stretch panics. *)
Definition step : Type := EntryAttributes -> outcome (EntryAttributes * option error).

Definition skip : step := fun a => Returns (a, None).

Definition fail (e : error) : step := fun a => Returns (a, Some e).

Definition call (f : EntryAttributes -> EntryAttributes) : step :=
  fun a => Returns (f a, None).

Definition callp (f : EntryAttributes -> outcome EntryAttributes) : step :=
  fun a => match f a with Returns a' => Returns (a', None) | Panics => Panics end.

Definition seq (s1 s2 : step) : step :=
  fun a =>
    match s1 a with
    | Returns (a', None) => s2 a'
    | r => r
    end.

Notation "s1 ;;; s2" := (seq s1 s2) (at level 100, s2 at level 200, right associativity).

Section codec.
Context {svc : Munge} {arch : Arch}.

(** [UnmarshalJSON]: the keys are handled in the order atime, mtime,
    ctime, mode, size, meta; the first failure returns. *)
Definition UnmarshalJSON (data : json.bytes) : step :=
  match json.Unmarshal data (Some ∅) with
  | Err _ =>
      fail (Errorf "plugin.EntryAttributes.UnmarshalJSON received a non-JSON object" [])
  | Ok mp =>
      (match index mp "atime" with
       | Some atime =>
           match ToTime atime with
           | Err err => fail (attrMungeError "atime" err)
           | Ok t => call (SetAtime t)
           end
       | None => skip
       end) ;;;
      (match index mp "mtime" with
       | Some mtime =>
           match ToTime mtime with
           | Err err => fail (attrMungeError "mtime" err)
           | Ok t => call (SetMtime t)
           end
       | None => skip
       end) ;;;
      (match index mp "ctime" with
       | Some ctime =>
           match ToTime ctime with
           | Err err => fail (attrMungeError "ctime" err)
           | Ok t => call (SetCtime t)
           end
       | None => skip
       end) ;;;
      (match index mp "mode" with
       | Some mode =>
           match mode with
           | VFloat64 raw => call (SetMode (FileMode_of_float64 raw))
           | _ =>
               fail (attrMungeError "mode"
                       (Errorf "mode was unexpected type %T: %v" [ArgValue mode; ArgValue mode]))
           end
       | None => skip
       end) ;;;
      (match index mp "size" with
       | Some size =>
           match ToSize size with
           | Err err => fail (attrMungeError "size" err)
           | Ok sz => call (SetSize sz)
           end
       | None => skip
       end) ;;;
      (match index mp "meta" with
       | Some rawMeta =>
           match rawMeta with
           | VMap meta => callp (SetMeta (OfValue (VMap meta)))
           | _ => fail (Errorf "meta is not a JSON object" [])
           end
       | None => skip
       end)
  end.

End codec.

(** The builder pattern: a record is made from [EntryAttributes{}] by a
    chain of setter calls. *)
Inductive setter : Type :=
| CallSetAtime (t : time.Time)
| CallSetMtime (t : time.Time)
| CallSetCtime (t : time.Time)
| CallSetMode (m : Z)
| CallSetSize (sz : Z)
| CallSetMeta (obj : object).

Definition invoke (c : setter) (a : EntryAttributes) : outcome EntryAttributes :=
  match c with
  | CallSetAtime t => Returns (SetAtime t a)
  | CallSetMtime t => Returns (SetMtime t a)
  | CallSetCtime t => Returns (SetCtime t a)
  | CallSetMode m => Returns (SetMode m a)
  | CallSetSize sz => Returns (SetSize sz a)
  | CallSetMeta obj => SetMeta obj a
  end.

(** The calls of a chain run in order, on the record the previous call
    returned. *)
Fixpoint chain (cs : list setter) (a : EntryAttributes) : outcome EntryAttributes :=
  match cs with
  | [] => Returns a
  | c :: cs' =>
      match invoke c a with
      | Returns a' => chain cs' a'
      | Panics => Panics
      end
  end.

Definition is_SetAtime (c : setter) : bool :=
  match c with CallSetAtime _ => true | _ => false end.

Definition is_SetMtime (c : setter) : bool :=
  match c with CallSetMtime _ => true | _ => false end.

Definition is_SetCtime (c : setter) : bool :=
  match c with CallSetCtime _ => true | _ => false end.

Definition is_SetSize (c : setter) : bool :=
  match c with CallSetSize _ => true | _ => false end.

Definition is_SetMeta (c : setter) : bool :=
  match c with CallSetMeta _ => true | _ => false end.

(** Some attribute is present: a time, the mode, the size, or a stored
    meta object. *)
Definition present (a : EntryAttributes) : bool :=
  HasAtime a || HasMtime a || HasCtime a || HasMode a || HasSize a
  || bool_decide (is_Some (meta a)).

End plugin.

(** ** A coercion service and a target to run the codec on *)

Module munge.

(** Reads a run of decimal digits that makes up the whole string. *)
Fixpoint read_uint (acc : Z) (s : string) : option Z :=
  match s with
  | EmptyString => Some acc
  | String c s' =>
      match time.digit_val c with
      | Some d => read_uint (10 * acc + d) s'
      | None => None
      end
  end.

(** Modelled from the spec: the conversion [ToTime] of the coercion
    service (package [munge], absent from the sources at hand).  It
    accepts a numeric epoch (seconds since 1970) and a string-encoded
    moment (RFC 3339), and fails with an error on any other
    representation. *)
Definition ToTime (v : value) : result time.Time :=
  match v with
  | VFloat64 f =>
      match float64.trunc f with
      | Some n => Ok (time.Unix n 0)
      | None => Err (Errorf "could not munge %v into a time" [ArgValue v])
      end
  | VString s =>
      match time.ParseRFC3339 s with
      | Some t => Ok t
      | None => Err (Errorf "could not munge %v into a time" [ArgValue v])
      end
  | _ => Err (Errorf "%v is not a valid time type" [ArgValue v])
  end.

(** Modelled from the spec: the conversion [ToSize] of the coercion
    service (package [munge], absent from the sources at hand).  It
    accepts a number and a string of decimal digits that denote an
    unsigned 64-bit integer, and fails with an error on any other
    representation. *)
Definition ToSize (v : value) : result Z :=
  match v with
  | VFloat64 f =>
      match float64.trunc f with
      | Some n =>
          if (0 <=? n) && (n <? 2 ^ 64) then Ok n
          else Err (Errorf "%v is not a valid size" [ArgValue v])
      | None => Err (Errorf "%v is not a valid size" [ArgValue v])
      end
  | VString s =>
      match s, read_uint 0 s with
      | String _ _, Some n =>
          if n <? 2 ^ 64 then Ok n
          else Err (Errorf "%v is not a valid size" [ArgValue v])
      | _, _ => Err (Errorf "%v is not a valid size" [ArgValue v])
      end
  | _ => Err (Errorf "%v is not a valid size type" [ArgValue v])
  end.

Definition service : Munge := Build_Munge ToTime ToSize.

End munge.

(** A 64-bit target that converts through a signed 64-bit integer and
    keeps the low 32 bits. *)
Definition amd64 : Arch :=
  {| uint32_out_of_range := fun f =>
       match float64.trunc f with
       | Some n => if (- 2 ^ 63 <=? n) && (n <? 2 ^ 63) then n else 0
       | None => 0
       end |}.

(** ** Vocabulary of the statements *)

(** The attributes, in the order in which [UnmarshalJSON] handles their
    keys. *)
Inductive attr : Type := Aatime | Amtime | Actime | Amode | Asize | Ameta.

Definition key (k : attr) : string :=
  match k with
  | Aatime => "atime" | Amtime => "mtime" | Actime => "ctime"
  | Amode => "mode" | Asize => "size" | Ameta => "meta"
  end.

Definition position (k : attr) : nat :=
  match k with
  | Aatime => 0 | Amtime => 1 | Actime => 2
  | Amode => 3 | Asize => 4 | Ameta => 5
  end%nat.

(** The record [a'] holds for attribute [k] what the record [a] holds. *)
Definition same_attr (k : attr) (a a' : plugin.EntryAttributes) : Prop :=
  match k with
  | Aatime => plugin.atime a' = plugin.atime a
  | Amtime => plugin.mtime a' = plugin.mtime a
  | Actime => plugin.ctime a' = plugin.ctime a
  | Amode => plugin.mode a' = plugin.mode a /\ plugin.hasMode a' = plugin.hasMode a
  | Asize => plugin.size a' = plugin.size a /\ plugin.hasSize a' = plugin.hasSize a
  | Ameta => plugin.meta a' = plugin.meta a
  end.

(** The error that [UnmarshalJSON] returns when [json.Unmarshal] fails. *)
Definition errNonObject : error :=
  Errorf "plugin.EntryAttributes.UnmarshalJSON received a non-JSON object" [].

(** The error that [UnmarshalJSON] returns for a meta value of the wrong
    shape. *)
Definition errMetaShape : error := Errorf "meta is not a JSON object" [].

(** Every number of the text is within the range of [float64]. *)
Fixpoint fits (j : json.text) : bool :=
  match j with
  | json.Number n => bool_decide (is_Some (json.ParseFloat n))
  | json.Array l => forallb fits l
  | json.Object ms => forallb (fun kv => fits (snd kv)) ms
  | _ => true
  end.

Definition is_object (j : json.text) : bool :=
  match j with json.Object _ => true | _ => false end.

(** The serialization of the argument of [SetMeta]: the bytes themselves
    for a byte slice, what [json.Marshal] writes for another value, none
    when [json.Marshal] fails. *)
Definition serialization (v : plugin.object) : option json.bytes :=
  match v with
  | plugin.OfBytes arr => Some arr
  | plugin.OfValue v' =>
      match json.Marshal v' with
      | Ok j => Some (json.Valid j)
      | Err _ => None
      end
  end.

Definition serializes_to_object (v : plugin.object) : Prop :=
  exists ms, serialization v = Some (json.Valid (json.Object ms)).

(** The argument already is a [JSONObject]. *)
Definition is_JSONObject (v : plugin.object) : bool :=
  match v with plugin.OfValue (VMap _) => true | _ => false end.


(** The error names the attribute: it was made by [attrMungeError] for
    that name. *)
Definition names (err : error) (name : string) : Prop :=
  exists inner, err = plugin.attrMungeError name inner.

(** The payloads that [json.Unmarshal] refuses to store into a map:
    bytes that are not JSON, a text that is neither an object nor [null],
    and an object with a number out of the [float64] range. *)
Definition refused (data : json.bytes) : bool :=
  match data with
  | json.Invalid => true
  | json.Valid json.Null => false
  | json.Valid (json.Object ms) => negb (fits (json.Object ms))
  | json.Valid _ => true
  end.

(** A stretch that always returns: it never panics. *)
Definition returns (s : plugin.step) : Prop :=
  forall a, exists a' e, s a = Returns (a', e).

(** The receiver with another stored meta object. *)
Definition with_meta (o : JSONObject) (a : plugin.EntryAttributes) : plugin.EntryAttributes :=
  {| plugin.atime := plugin.atime a; plugin.mtime := plugin.mtime a;
     plugin.ctime := plugin.ctime a; plugin.mode := plugin.mode a;
     plugin.hasMode := plugin.hasMode a; plugin.size := plugin.size a;
     plugin.hasSize := plugin.hasSize a; plugin.meta := o |}.

(** A value goes through the codec: [json.Marshal] writes it and the
    generic decoder reads the text back as [v']. *)
Definition passes (v v' : value) : Prop :=
  exists j, json.Marshal v = Ok j /\ json.decode j = Some v'.

(** Equality of moments. *)
Definition Time_eqb (t1 t2 : time.Time) : bool :=
  (time.sec t1 =? time.sec t2) && (time.nsec t1 =? time.nsec t2).

(** The moment can be written by [Time.MarshalJSON] and [ToTime] converts
    the written string back to the same moment. *)
Definition time_survives {svc : Munge} (t : time.Time) : bool :=
  match time.MarshalJSON t with
  | Some s =>
      match ToTime (VString s) with
      | Ok t' => Time_eqb t' t
      | Err _ => false
      end
  | None => false
  end.

(** The size has a nearest [float64] and [ToSize] converts that number
    back to the size. *)
Definition size_survives {svc : Munge} (sz : Z) : bool :=
  match float64.of_Z sz with
  | Some f =>
      match ToSize (VFloat64 f) with
      | Ok n => n =? sz
      | Err _ => false
      end
  | None => false
  end.

(** ** Decimal integers: Go's [strconv] *)

Module strconv.

(** The decimal digits of [n >= 0], most significant first, before
    [acc]; [fuel] bounds the number of digits. *)
Fixpoint digits (fuel : nat) (n : Z) (acc : string) : string :=
  match fuel with
  | O => acc
  | S fuel' =>
      let acc' := String (time.digit_char n) acc in
      if n <? 10 then acc' else digits fuel' (n / 10) acc'
  end.

(** [strconv.Itoa]: the decimal form, with [-] before a negative
    number. *)
Definition Itoa (n : Z) : string :=
  let fuel := S (Z.to_nat (Z.log2 (Z.abs n))) in
  if n <? 0 then String "-" (digits fuel (- n) EmptyString)
  else digits fuel n EmptyString.

(** The value of a run of decimal digits that makes up the whole
    string; [None] at any other character. *)
Fixpoint parse_digits (acc : Z) (s : string) : option Z :=
  match s with
  | EmptyString => Some acc
  | String c s' =>
      match time.digit_val c with
      | Some d => parse_digits (10 * acc + d) s'
      | None => None
      end
  end.

Definition errSyntax (s : string) : error :=
  Errorf "strconv.Atoi: parsing %q: invalid syntax" [ArgValue (VString s)].

Definition errRange (s : string) : error :=
  Errorf "strconv.Atoi: parsing %q: value out of range" [ArgValue (VString s)].

(** [strconv.Atoi] on a 64-bit target: an optional sign and at least one
    decimal digit, nothing else; a syntax error otherwise, and a range
    error when the number is not an [int]. *)
Definition Atoi (s : string) : result Z :=
  let '(neg, body) :=
    match s with
    | String "-" r => (true, r)
    | String "+" r => (false, r)
    | _ => (false, s)
    end in
  match body with
  | EmptyString => Err (errSyntax s)
  | String _ _ =>
      match parse_digits 0 body with
      | None => Err (errSyntax s)
      | Some v =>
          let n := if neg then - v else v in
          if (n <? - 2 ^ 63) || (2 ^ 63 <=? n) then Err (errRange s) else Ok n
      end
  end.

(** Arithmetic on [int] wraps around. *)
Definition wrap_int (z : Z) : Z := (z + 2 ^ 63) mod 2 ^ 64 - 2 ^ 63.

End strconv.

(** ** Package [cmd]: the [history] command

    A run is the list of what the command does to the outside, in
    order.  Writing to the standard output and to the standard error is
    taken to succeed. *)

Module cmd.

(** What the command gets from an [io.ReadCloser]: the bytes read until
    the end or until a read fails, the error of that read if there was
    one, and the error of [Close] if there is one. *)
Record ReadCloser : Type := mkReadCloser {
  content : string;
  read_error : option error;
  close_error : option error
}.

(** A [time.Time] as [Format] reads it: the moment, and the offset
    from UTC, in seconds, that the location of the value has at that
    moment (0 for [time.UTC]). *)
Record LocatedTime : Type := mkLocatedTime {
  moment : time.Time;
  offset : Z
}.

(** An entry of the command history. *)
Record Activity : Type := mkActivity {
  Start : LocatedTime;
  Description : string
}.

(** The history channel as [printHistory] sees it: the number of
    entries queued when [len] is taken, and the entries received until
    the channel is closed. *)
Record Channel : Type := mkChannel {
  queued : nat;
  received : list Activity
}.

(** The client of the daemon, [cmdutil.NewClient()]. *)
Class Client : Type := {
  ActivityJournal : Z -> bool -> result ReadCloser;
  History : bool -> result Channel
}.

(** What a run does to the outside, in order. *)
Inductive event : Type :=
| AskJournal (index : Z) (follow : bool)
| AskHistory (follow : bool)
| Stdout (s : string)
| ErrPrintf (format : string) (err : error)
| Close
| Log (err : error).

(** [n] zeros before [s]. *)
Fixpoint zeros (n : nat) (s : string) : string :=
  match n with
  | O => s
  | S n' => String "0" (zeros n' s)
  end.

(** [appendInt] of package [time]: the sign of a negative [x], then its
    digits with zeros before them up to [width] digits; more digits
    than [width] are all written. *)
Definition appendInt (x : Z) (width : nat) : string :=
  let s := strconv.Itoa (Z.abs x) in
  let body := zeros (width - String.length s) s in
  if x <? 0 then String "-" body else body.

(** The moments that [Format] is modelled for: [time.Time] computes the
    date from unsigned absolute seconds, counted from a year near
    -292277022399; within [2^62] seconds of the year 1, about 146
    billion years either way, that count does not wrap around. *)
Definition formattable (t : LocatedTime) : bool :=
  (- 2 ^ 62 <=? time.sec (moment t) + offset t) &&
  (time.sec (moment t) + offset t <? 2 ^ 62).

(** [t.Format("2006-01-02 15:04")]: the date and the clock in the
    location of [t], that is, of the moment moved by the offset; the
    year with four digits at least, the other fields with two. *)
Definition Format_minute (t : LocatedTime) : string :=
  let abs := time.sec (moment t) + offset t in
  let '(y, m, d) := time.civil_from_days (abs / 86400) in
  let s := abs mod 86400 in
  appendInt y 4 +:+ "-" +:+ appendInt m 2 +:+ "-" +:+ appendInt d 2 +:+ " " +:+
  appendInt (s / 3600) 2 +:+ ":" +:+ appendInt (s / 60 mod 60) 2.

(** The format of the error line, ["%v"] and a line feed. *)
Definition errFormat : string := String "%" (String "v" (String "010" EmptyString)).

(** [n] spaces before [s]. *)
Fixpoint spaces (n : nat) (s : string) : string :=
  match n with
  | O => s
  | S n' => String " " (spaces n' s)
  end.

(** The verb [%Nd] of [fmt]: the decimal form, with spaces before it up
    to the width [N]. *)
Definition fmt_d (width : nat) (n : Z) : string :=
  let s := strconv.Itoa n in
  spaces (width - String.length s) s.

(** [Sprintf("%" + Itoa(width) + "d  %s  %s\n", n, start, description)] *)
Definition row (width : nat) (n : Z) (start description : string) : string :=
  fmt_d width n +:+ "  " +:+ start +:+ "  " +:+ description +:+ String "010" EmptyString.

Section commands.
Context {client : Client}.

(** [errz.Log(rdr.Close())], deferred. *)
Definition close_and_log (rdr : ReadCloser) : list event :=
  Close :: match close_error rdr with Some e => [Log e] | None => [] end.

Definition printJournalEntry (index : string) (follow : bool) : list event * option error :=
  match strconv.Atoi index with
  | Err err => ([], Some err)
  | Ok idx =>
      let ask := AskJournal (strconv.wrap_int (idx - 1)) follow in
      match ActivityJournal (strconv.wrap_int (idx - 1)) follow with
      | Err err => ([ask], Some err)
      | Ok rdr => (ask :: Stdout (content rdr) :: close_and_log rdr, read_error rdr)
      end
  end.

(** The loop of [printHistory]: one line for each entry received, [i]
    counting them. *)
Fixpoint print_rows (width : nat) (i : Z) (items : list Activity) : list event :=
  match items with
  | [] => []
  | item :: rest =>
      Stdout (row width (strconv.wrap_int (i + 1)) (Format_minute (Start item))
                (Description item))
      :: print_rows width (strconv.wrap_int (i + 1)) rest
  end.

Definition printHistory (follow : bool) : list event * option error :=
  match History follow with
  | Err err => ([AskHistory follow], Some err)
  | Ok history =>
      let indexColumnLength :=
        String.length (strconv.Itoa (Z.of_nat (queued history))) in
      (AskHistory follow :: print_rows indexColumnLength 0 (received history), None)
  end.

(** [historyMain]: [flag] is what [cmd.Flags().GetBool("follow")]
    returns; the result is the value of the [exitCode]. *)
Definition historyMain (flag : result bool) (args : list string)
  : outcome (list event * Z) :=
  match flag with
  | Err _ => Panics
  | Ok follow =>
      let '(events, err) :=
        match args with
        | arg :: _ => printJournalEntry arg follow
        | [] => printHistory follow
        end in
      match err with
      | Some e => Returns (events ++ [ErrPrintf errFormat e], 1)
      | None => Returns (events, 0)
      end
  end.

End commands.

End cmd.

(** A daemon with two commands in its history, for the examples: the
    journal of the first one is at hand, its reader fails to close, and
    there is no other journal. *)
Definition two_commands : cmd.Client := {|
  cmd.ActivityJournal index follow :=
    if index =? 0
    then Ok (cmd.mkReadCloser "ls /aws" None (Some (Errorf "already closed" [])))
    else Err (Errorf "no such journal" []);
  cmd.History follow :=
    Ok (cmd.mkChannel 2
          [cmd.mkActivity (cmd.mkLocatedTime (time.Unix 1551434400 0) 0) "ls /aws";
           cmd.mkActivity (cmd.mkLocatedTime (time.Unix 1551434460 0) (-28800))
             "cat /aws/x"])
|}.

(** ** Vocabulary of the further results *)

(** The attribute that a setter writes. *)
Definition attr_of (c : plugin.setter) : attr :=
  match c with
  | plugin.CallSetAtime _ => Aatime
  | plugin.CallSetMtime _ => Amtime
  | plugin.CallSetCtime _ => Actime
  | plugin.CallSetMode _ => Amode
  | plugin.CallSetSize _ => Asize
  | plugin.CallSetMeta _ => Ameta
  end.

(** What [ToMap] stores under the key of a structured attribute. *)
Definition shown (k : attr) (a : plugin.EntryAttributes) : option value :=
  match k with
  | Aatime => if plugin.HasAtime a then Some (VTime (plugin.Atime a)) else None
  | Amtime => if plugin.HasMtime a then Some (VTime (plugin.Mtime a)) else None
  | Actime => if plugin.HasCtime a then Some (VTime (plugin.Ctime a)) else None
  | Amode =>
      if plugin.HasMode a
      then Some (VString (os.FileMode_String (plugin.Mode a))) else None
  | Asize => if plugin.HasSize a then Some (VUint64 (plugin.Size a)) else None
  | Ameta => Some (VMap (plugin.Meta a))
  end.

(** What [MarshalJSON] hands to [json.Marshal] under the key of an
    attribute: as [ToMap(true)], but the mode in its numeric form. *)
Definition sent (k : attr) (a : plugin.EntryAttributes) : option value :=
  match k with
  | Amode => if plugin.HasMode a then Some (VFileMode (plugin.Mode a)) else None
  | _ => shown k a
  end.

(** The year of the moment is one that [Time.MarshalJSON] writes. *)
Definition year_in_range (t : time.Time) : bool :=
  (0 <=? time.Year t) && (time.Year t <? 10000).

(** The decoded document holds, under the key of the attribute, nothing
    or a value that [UnmarshalJSON] accepts for it. *)
Definition key_ok {svc : Munge} (mp : JSONObject) (k : attr) : bool :=
  match index mp (key k) with
  | None => true
  | Some v =>
      match k with
      | Aatime | Amtime | Actime =>
          match ToTime v with Ok _ => true | Err _ => false end
      | Amode => match v with VFloat64 _ => true | _ => false end
      | Asize => match ToSize v with Ok _ => true | Err _ => false end
      | Ameta => match v with VMap _ => true | _ => false end
      end
  end.

(** The attribute of [a'] is what the decoded document says: the
    converted value of its key, or what [a] held when the key is not
    there. *)
Definition decoded_attr {svc : Munge} {arch : Arch}
    (mp : JSONObject) (k : attr) (a a' : plugin.EntryAttributes) : Prop :=
  match index mp (key k) with
  | None => same_attr k a a'
  | Some v =>
      match k with
      | Aatime => ToTime v = Ok (plugin.atime a')
      | Amtime => ToTime v = Ok (plugin.mtime a')
      | Actime => ToTime v = Ok (plugin.ctime a')
      | Amode =>
          exists raw, v = VFloat64 raw /\
                      plugin.mode a' = FileMode_of_float64 raw /\
                      plugin.hasMode a' = true
      | Asize => ToSize v = Ok (plugin.size a') /\ plugin.hasSize a' = true
      | Ameta => exists m, v = VMap m /\ plugin.meta a' = m
      end
  end.

(** The value is of a kind that the generic decoder makes: [nil], a
    [bool], a [float64], a [string], a slice or a map of such values. *)
Fixpoint json_kind (v : value) : bool :=
  match v with
  | VNil | VBool _ | VFloat64 _ | VString _ => true
  | VSlice l => forallb json_kind l
  | VMap (Some m) => map_fold (fun _ x acc => json_kind x && acc) true m
  | _ => false
  end.

Definition attr_eq (k1 k2 : attr) : bool := Nat.eqb (position k1) (position k2).

(** * Results *)

Import plugin.

(** ** Worked examples *)

Section examples.
#[local] Existing Instance munge.service.
#[local] Existing Instance amd64.

(** Decoding [{"size": 42, "mode": 493}] sets the size 42 and the mode
    whose display form is that of octal 0755. *)
Example decode_size_and_mode :
  exists a,
    UnmarshalJSON
      (json.Valid (json.Object
         [("size", json.Number (json.int 42)); ("mode", json.Number (json.int 493))]))
      empty = Returns (a, None) /\
    HasSize a = true /\ Size a = 42 /\ HasMode a = true /\
    ToMap a false !! "mode" = Some (VString "-rwxr-xr-x").
Proof. eexists. repeat split; vm_compute; reflexivity. Qed.

(** Decoding [{"meta": "not-an-object"}] fails with the meta-shape
    error. *)
Example decode_meta_string :
  UnmarshalJSON (json.Valid (json.Object [("meta", json.Str "not-an-object")])) empty
  = Returns (empty, Some errMetaShape).
Proof. vm_compute. reflexivity. Qed.

(** Decoding a JSON array fails with the top-level error. *)
Example decode_array :
  UnmarshalJSON (json.Valid (json.Array [json.Number (json.int 1)])) empty
  = Returns (empty, Some errNonObject).
Proof. vm_compute. reflexivity. Qed.

(** Decoding [null] returns without an error and sets nothing. *)
Example decode_null :
  UnmarshalJSON (json.Valid json.Null) empty = Returns (empty, None).
Proof. reflexivity. Qed.

(** Times are written in RFC 3339 form and read back. *)
Example time_text :
  time.MarshalJSON (time.Unix 1551434400 123450000) = Some "2019-03-01T10:00:00.12345Z" /\
  time.ParseRFC3339 "2019-03-01T12:00:00.12345+02:00"
  = Some (time.Unix 1551434400 123450000) /\
  time.RFC3339Nano time.zero = "0001-01-01T00:00:00Z" /\
  time.MarshalJSON (time.Unix 253402300800 0) = None.
Proof. repeat split; vm_compute; reflexivity. Qed.

(** Numbers are read as the nearest [float64]; [1e400] has none. *)
Example number_text :
  json.ParseFloat (json.int 493) = Some (S754_finite false 8672947719897088 (-44)) /\
  json.ParseFloat (json.int 9007199254740993)
  = json.ParseFloat (json.int 9007199254740992) /\
  json.ParseFloat (json.mkNumber false 15 (-1))
  = Some (S754_finite false 6755399441055744 (-52)) /\
  json.ParseFloat (json.mkNumber false 1 400) = None.
Proof. repeat split; vm_compute; reflexivity. Qed.

(** A struct handed to [SetMeta] is stored as the object it serializes
    to. *)
Example SetMeta_struct :
  SetMeta (OfValue (VStruct [("Name", VString "c1"); ("Pid", VUint64 7)])) empty
  = Returns (with_meta
               (Some (<["Pid" := VFloat64 (S754_finite false 7881299347898368 (-50))]>
                        (<["Name" := VString "c1"]> ∅)))
               empty).
Proof. vm_compute. reflexivity. Qed.

End examples.

(** ** Presence of the attributes *)

Section presence.

(** Closes "a setter that is not the one of the field leaves the field
    alone": every setter returns the receiver with one field replaced. *)
Ltac setter_frame :=
  let c := fresh "c" in
  let Hi := fresh "Hi" in
  intros c; destruct c; simpl; intros ? ? ? Hi; try discriminate;
  try (injection Hi as <-; reflexivity);
  unfold SetMeta in Hi;
  match type of Hi with
  | context [ToJSONObject ?obj] => destruct (ToJSONObject obj); [|discriminate]
  end;
  injection Hi as <-; reflexivity.

Lemma invoke_hasSize (c : setter) (a a' : EntryAttributes) :
  is_SetSize c = false -> invoke c a = Returns a' -> hasSize a' = hasSize a.
Proof. revert c a a'. setter_frame. Qed.

Lemma invoke_atime (c : setter) (a a' : EntryAttributes) :
  is_SetAtime c = false -> invoke c a = Returns a' -> atime a' = atime a.
Proof. revert c a a'. setter_frame. Qed.

Lemma invoke_mtime (c : setter) (a a' : EntryAttributes) :
  is_SetMtime c = false -> invoke c a = Returns a' -> mtime a' = mtime a.
Proof. revert c a a'. setter_frame. Qed.

Lemma invoke_ctime (c : setter) (a a' : EntryAttributes) :
  is_SetCtime c = false -> invoke c a = Returns a' -> ctime a' = ctime a.
Proof. revert c a a'. setter_frame. Qed.

Lemma invoke_meta (c : setter) (a a' : EntryAttributes) :
  is_SetMeta c = false -> invoke c a = Returns a' -> meta a' = meta a.
Proof.
  destruct c; simpl; try discriminate; intros _ Hi; injection Hi as <-; reflexivity.
Qed.

(** A field that no call of the chain touches keeps its value. *)
Lemma chain_frame {A : Type} (field : EntryAttributes -> A) (touches : setter -> bool) :
  (forall c a a', touches c = false -> invoke c a = Returns a' -> field a' = field a) ->
  forall cs a a',
    forallb (fun c => negb (touches c)) cs = true ->
    chain cs a = Returns a' -> field a' = field a.
Proof.
  intros Hstep cs. induction cs as [|c cs IH]; intros a a' Hcs Hch; simpl in *.
  - injection Hch as <-. reflexivity.
  - apply andb_prop in Hcs as [Hc Hcs].
    destruct (invoke c a) as [a1|] eqn:Hi; [|discriminate].
    rewrite (IH _ _ Hcs Hch). apply negb_true_iff in Hc. exact (Hstep _ _ _ Hc Hi).
Qed.

End presence.

Section projection.

(** [ToMap(false)] is the same map whatever [Meta] is. *)
Lemma ToMap_body_false (M1 M2 : EntryAttributes -> JSONObject) (a : EntryAttributes) :
  ToMap_body M1 a false = ToMap_body M2 a false.
Proof. reflexivity. Qed.

Lemma Meta_unset (a : EntryAttributes) :
  meta a = None -> Meta a = Some (ToMap a false).
Proof. intros Hm. unfold Meta. rewrite Hm. reflexivity. Qed.

Lemma Meta_set (a : EntryAttributes) (m : gmap string value) :
  meta a = Some m -> Meta a = Some m.
Proof. intros Hm. unfold Meta. rewrite Hm. reflexivity. Qed.

Lemma ToMap_false_meta (a : EntryAttributes) : ToMap a false !! "meta" = None.
Proof.
  unfold ToMap, ToMap_body.
  destruct (HasAtime a), (HasMtime a), (HasCtime a), (HasMode a), (HasSize a);
    by simplify_map_eq.
Qed.

Lemma ToMap_true_meta (a : EntryAttributes) :
  ToMap a true !! "meta" = Some (VMap (Meta a)).
Proof. unfold ToMap, ToMap_body. apply lookup_insert_eq. Qed.

Lemma ToMap_true_other (a : EntryAttributes) (k : string) :
  k <> "meta" -> ToMap a true !! k = ToMap a false !! k.
Proof. intros Hk. unfold ToMap, ToMap_body. by rewrite lookup_insert_ne. Qed.

Lemma ToMap_empty_false : ToMap empty false = ∅.
Proof. reflexivity. Qed.

End projection.

(** ** The claims on presence and projection *)

(** C5. After a call of [SetSize(0)] on any record [HasSize()] is true;
    on a record built by a chain of setters in which [SetSize] is never
    called [HasSize()] is false.  A size of zero that is present differs
    from an absent size. *)
Theorem size_zero_is_present
    (a : EntryAttributes) (cs : list setter) (b : EntryAttributes) :
  HasSize (SetSize 0 a) = true /\
  (forallb (fun c => negb (is_SetSize c)) cs = true ->
   chain cs empty = Returns b ->
   HasSize b = false).
Proof.
  split; [reflexivity|].
  intros Hcs Hb. unfold HasSize.
  rewrite (chain_frame hasSize is_SetSize invoke_hasSize cs empty b Hcs Hb).
  reflexivity.
Qed.

Lemma size_zero_is_present_witness :
  HasSize (SetSize 0 empty) = true /\
  HasSize (SetMode 420 (SetAtime (time.Unix 1 0) empty)) = false.
Proof.
  destruct (size_zero_is_present empty
              [CallSetAtime (time.Unix 1 0); CallSetMode 420]
              (SetMode 420 (SetAtime (time.Unix 1 0) empty))) as [H1 H2].
  split; [exact H1|]. apply H2; reflexivity.
Defined.

(** C6. Setting a time to the zero moment and never setting it cannot be
    told apart: [HasAtime()] is false after [SetAtime] of a zero moment,
    and false on a record built by a chain of setters in which [SetAtime]
    is never called; likewise for [SetMtime]/[HasMtime] and
    [SetCtime]/[HasCtime]. *)
Theorem zero_time_is_absent
    (t : time.Time) (a : EntryAttributes) (cs : list setter) (b : EntryAttributes) :
  (time.IsZero t = true ->
   HasAtime (SetAtime t a) = false /\
   HasMtime (SetMtime t a) = false /\
   HasCtime (SetCtime t a) = false) /\
  (chain cs empty = Returns b ->
   (forallb (fun c => negb (is_SetAtime c)) cs = true -> HasAtime b = false) /\
   (forallb (fun c => negb (is_SetMtime c)) cs = true -> HasMtime b = false) /\
   (forallb (fun c => negb (is_SetCtime c)) cs = true -> HasCtime b = false)).
Proof.
  split.
  - intros Ht. unfold HasAtime, HasMtime, HasCtime. simpl. rewrite Ht. done.
  - intros Hb. unfold HasAtime, HasMtime, HasCtime. repeat split; intros Hcs.
    + by rewrite (chain_frame atime is_SetAtime invoke_atime cs empty b Hcs Hb).
    + by rewrite (chain_frame mtime is_SetMtime invoke_mtime cs empty b Hcs Hb).
    + by rewrite (chain_frame ctime is_SetCtime invoke_ctime cs empty b Hcs Hb).
Qed.

Lemma zero_time_is_absent_witness :
  (HasAtime (SetAtime time.zero (SetSize 7 empty)) = false /\
   HasMtime (SetMtime time.zero (SetSize 7 empty)) = false /\
   HasCtime (SetCtime time.zero (SetSize 7 empty)) = false) /\
  HasAtime (SetSize 7 empty) = false /\
  HasMtime (SetSize 7 empty) = false /\
  HasCtime (SetSize 7 empty) = false.
Proof.
  destruct (zero_time_is_absent time.zero (SetSize 7 empty)
              [CallSetSize 7] (SetSize 7 empty)) as [H1 H2].
  split; [apply H1; reflexivity|].
  destruct (H2 eq_refl) as (Ha & Hm & Hc).
  split; [apply Ha; reflexivity|].
  split; [apply Hm; reflexivity | apply Hc; reflexivity].
Defined.

(** C3. [ToMap(false)] never holds a ["meta"] key; [ToMap(true)] holds a
    ["meta"] key as soon as some attribute is present, also when
    [SetMeta] was never called. *)
Theorem ToMap_meta_key (r : EntryAttributes) :
  ToMap r false !! "meta" = None /\
  (present r = true -> is_Some (ToMap r true !! "meta")).
Proof.
  split; [apply ToMap_false_meta|].
  intros _. rewrite ToMap_true_meta. eauto.
Qed.

Lemma ToMap_meta_key_witness :
  ToMap (SetSize 0 empty) false !! "meta" = None /\
  is_Some (ToMap (SetSize 0 empty) true !! "meta").
Proof.
  destruct (ToMap_meta_key (SetSize 0 empty)) as [H1 H2].
  split; [exact H1|]. apply H2. reflexivity.
Defined.

(** C9. The code departs from the claim, and from the comment of
    [Meta], after a call of [SetMeta] whose argument serializes to
    [null]: [nil], a nil [JSONObject] or the bytes [null].  The call
    returns, what it stores is the nil object, which is also what a
    record without a call holds, and [Meta()] then returns
    [ToMap(false)] and not the object of the call: on a record with the
    size 3, the map with the entry ["size"]. *)
Theorem Meta_after_nil_override (a : EntryAttributes) :
  Forall (fun obj => ToJSONObject obj = Returns None /\
                     SetMeta obj a = Returns (with_meta None a))
         [OfValue VNil; OfValue (VMap None); OfBytes (json.Valid json.Null)] /\
  Meta (with_meta None a) = Some (ToMap a false) /\
  (exists b, SetMeta (OfValue VNil) (SetSize 3 empty) = Returns b /\
             Meta b = Some {["size" := VUint64 3]}).
Proof.
  split; [repeat constructor|]. split.
  - by destruct a.
  - eexists. split; reflexivity.
Qed.

(** A call of [SetMeta] whose argument serializes to [null] stores no
    object: [Meta()] stays the projection. *)
Lemma Meta_after_SetMeta_nil (a : EntryAttributes) :
  SetMeta (OfValue VNil) a = Returns (with_meta None a) /\
  Meta (with_meta None a) = Some (ToMap (with_meta None a) false).
Proof. split; reflexivity. Qed.

(** C10. On the empty record, [ToMap(true)] is the map with the single
    key ["meta"], bound to the empty JSON object: the ["meta"] entry is
    written even when no attribute is present, and so the encoding of the
    empty record is the object with that one member. *)
Theorem ToMap_true_of_empty :
  ToMap empty true = {["meta" := VMap (Some ∅)]} /\
  (forall k, is_Some (ToMap empty true !! k) <-> k = "meta") /\
  MarshalJSON empty = Ok (json.Valid (json.Object [("meta", json.Object [])])).
Proof.
  assert (ToMap empty true = {["meta" := VMap (Some ∅)]}) as E by reflexivity.
  split; [exact E|]. split; [|vm_compute; reflexivity].
  intros k. rewrite E. rewrite lookup_singleton_is_Some. done.
Qed.

(** ** Stretches of [UnmarshalJSON] *)

Section stretches.
Context {svc : Munge} {arch : Arch}.

Lemma seq_inv (s1 s2 : step) (a a' : EntryAttributes) (e : option error) :
  (s1 ;;; s2) a = Returns (a', e) ->
  (is_Some e /\ s1 a = Returns (a', e)) \/
  (exists a1, s1 a = Returns (a1, None) /\ s2 a1 = Returns (a', e)).
Proof.
  unfold seq. destruct (s1 a) as [[a1 [e1|]]|] eqn:E; intros Hs.
  - injection Hs as <- <-. left. eauto.
  - right. eauto.
  - discriminate.
Qed.

Lemma seq_returns (s1 s2 : step) : returns s1 -> returns s2 -> returns (s1 ;;; s2).
Proof.
  intros H1 H2 a. unfold seq. destruct (H1 a) as (a1 & e1 & ->).
  destruct e1; [eauto|]. apply H2.
Qed.

Lemma ToJSONObject_of_map (m : JSONObject) : ToJSONObject (OfValue (VMap m)) = Returns m.
Proof. reflexivity. Qed.

Lemma SetMeta_of_map (m : JSONObject) (a : EntryAttributes) :
  SetMeta (OfValue (VMap m)) a = Returns (with_meta m a).
Proof. reflexivity. Qed.

(** What the stretch of a time key does. *)
Lemma time_stretch (o : option value) (name : string)
    (set : time.Time -> EntryAttributes -> EntryAttributes)
    (a a1 : EntryAttributes) (e : option error) :
  match o with
  | Some v =>
      match ToTime v with
      | Err err => fail (attrMungeError name err)
      | Ok t => call (set t)
      end
  | None => skip
  end a = Returns (a1, e) ->
  (o = None /\ e = None /\ a1 = a) \/
  (exists v t, o = Some v /\ ToTime v = Ok t /\ e = None /\ a1 = set t a) \/
  (exists v err, o = Some v /\ ToTime v = Err err /\
                 e = Some (attrMungeError name err) /\ a1 = a).
Proof.
  destruct o as [v|]; [destruct (ToTime v) as [t|err] eqn:E|];
    intros Hs; injection Hs as <- <-; eauto 10.
Qed.

Lemma mode_stretch (o : option value) (a a1 : EntryAttributes) (e : option error) :
  match o with
  | Some mode =>
      match mode with
      | VFloat64 raw => call (SetMode (FileMode_of_float64 raw))
      | _ =>
          fail (attrMungeError "mode"
                  (Errorf "mode was unexpected type %T: %v" [ArgValue mode; ArgValue mode]))
      end
  | None => skip
  end a = Returns (a1, e) ->
  (o = None /\ e = None /\ a1 = a) \/
  (exists raw, o = Some (VFloat64 raw) /\ e = None /\
               a1 = SetMode (FileMode_of_float64 raw) a) \/
  (exists v, o = Some v /\ (forall raw, v <> VFloat64 raw) /\
             e = Some (attrMungeError "mode"
                         (Errorf "mode was unexpected type %T: %v" [ArgValue v; ArgValue v])) /\
             a1 = a).
Proof.
  destruct o as [v|]; [destruct v|]; intros Hs; injection Hs as <- <-;
    try (left; done); try (right; left; eauto; done);
    right; right; eexists; (split; [reflexivity|]); (split; [discriminate|done]).
Qed.

Lemma size_stretch (o : option value) (a a1 : EntryAttributes) (e : option error) :
  match o with
  | Some v =>
      match ToSize v with
      | Err err => fail (attrMungeError "size" err)
      | Ok sz => call (SetSize sz)
      end
  | None => skip
  end a = Returns (a1, e) ->
  (o = None /\ e = None /\ a1 = a) \/
  (exists v sz, o = Some v /\ ToSize v = Ok sz /\ e = None /\ a1 = SetSize sz a) \/
  (exists v err, o = Some v /\ ToSize v = Err err /\
                 e = Some (attrMungeError "size" err) /\ a1 = a).
Proof.
  destruct o as [v|]; [destruct (ToSize v) as [t|err] eqn:E|];
    intros Hs; injection Hs as <- <-; eauto 10.
Qed.

Lemma meta_stretch (o : option value) (a a1 : EntryAttributes) (e : option error) :
  match o with
  | Some rawMeta =>
      match rawMeta with
      | VMap meta => callp (SetMeta (OfValue (VMap meta)))
      | _ => fail (Errorf "meta is not a JSON object" [])
      end
  | None => skip
  end a = Returns (a1, e) ->
  (o = None /\ e = None /\ a1 = a) \/
  (exists m, o = Some (VMap m) /\ e = None /\ a1 = with_meta m a) \/
  (exists v, o = Some v /\ (forall m, v <> VMap m) /\ e = Some errMetaShape /\ a1 = a).
Proof.
  destruct o as [v|]; [destruct v|]; intros Hs; injection Hs as <- <-;
    try (left; done); try (right; left; eauto; done);
    right; right; eexists; (split; [reflexivity|]); (split; [discriminate|done]).
Qed.

Lemma time_stretch_returns (o : option value) (name : string)
    (set : time.Time -> EntryAttributes -> EntryAttributes) :
  returns (match o with
           | Some v =>
               match ToTime v with
               | Err err => fail (attrMungeError name err)
               | Ok t => call (set t)
               end
           | None => skip
           end).
Proof. intros a. destruct o as [v|]; [destruct (ToTime v)|]; eexists _, _; reflexivity. Qed.

(** [UnmarshalJSON] never panics. *)
Lemma UnmarshalJSON_returns (data : json.bytes) : returns (UnmarshalJSON data).
Proof.
  unfold UnmarshalJSON.
  destruct (json.Unmarshal data (Some ∅)) as [mp|e0];
    [|intros a; eexists _, _; reflexivity].
  repeat apply seq_returns; try apply time_stretch_returns.
  - intros a. destruct (index mp "mode") as [[]|]; eexists _, _; reflexivity.
  - intros a. destruct (index mp "size") as [v|]; [destruct (ToSize v)|];
      eexists _, _; reflexivity.
  - intros a. destruct (index mp "meta") as [[]|]; eexists _, _; reflexivity.
Qed.

End stretches.

(** ** Decoding: what an error leaves behind *)

(** Cuts a run of [UnmarshalJSON] into the runs of its stretches. *)
Ltac cut_run H :=
  repeat
    match type of H with
    | (_ ;;; _) _ = Returns _ =>
        let Hst := fresh "Hst" in
        apply seq_inv in H as [(? & Hst)|(? & Hst & H)]
    end.

(** Replaces the run of each stretch by what the stretch did. *)
Ltac read_stretches :=
  repeat
    match goal with
    | Hst : _ = Returns (_, _) |- _ =>
        first
          [ apply time_stretch in Hst as
              [(? & ? & ?)|[(? & ? & ? & ? & ? & ?)|(? & ? & ? & ? & ? & ?)]]
          | apply mode_stretch in Hst as
              [(? & ? & ?)|[(? & ? & ? & ?)|(? & ? & ? & ? & ?)]]
          | apply size_stretch in Hst as
              [(? & ? & ?)|[(? & ? & ? & ? & ? & ?)|(? & ? & ? & ? & ? & ?)]]
          | apply meta_stretch in Hst as
              [(? & ? & ?)|[(? & ? & ? & ?)|(? & ? & ? & ? & ?)]] ]
    end;
  simplify_eq;
  try match goal with Hs : is_Some None |- _ => destruct (is_Some_None Hs) end.

Section failure.
Context {svc : Munge} {arch : Arch}.

Lemma UnmarshalJSON_non_object (data : json.bytes) (e0 : error) (a : EntryAttributes) :
  json.Unmarshal data (Some ∅) = Err e0 ->
  UnmarshalJSON data a = Returns (a, Some errNonObject).
Proof. intros Hu. unfold UnmarshalJSON. rewrite Hu. reflexivity. Qed.

Lemma names_inj (name1 name2 : string) (inner : error) :
  names (attrMungeError name1 inner) name2 -> name1 = name2.
Proof. intros [inner' Heq]. injection Heq as -> _. reflexivity. Qed.

Lemma errNonObject_names (name : string) : ~ names errNonObject name.
Proof. intros [inner Heq]. discriminate. Qed.

Lemma errMetaShape_names (name : string) : ~ names errMetaShape name.
Proof. intros [inner Heq]. discriminate. Qed.

(** A key that the decoded document does not hold leaves its attribute
    alone, whether or not the call returns an error. *)
Lemma UnmarshalJSON_absent_key
    (data : json.bytes) (mp : JSONObject) (k : attr)
    (a a' : EntryAttributes) (e : option error) :
  json.Unmarshal data (Some ∅) = Ok mp ->
  index mp (key k) = None ->
  UnmarshalJSON data a = Returns (a', e) ->
  same_attr k a a'.
Proof.
  intros Hu Hk Hrun. unfold UnmarshalJSON in Hrun. rewrite Hu in Hrun.
  cut_run Hrun; read_stretches.
  all: destruct k; simpl in Hk |- *; try done; congruence.
Qed.

End failure.

(** ** The generic decoder *)

(** Closes an equivalence between statements on defined options. *)
Ltac some_cases :=
  split; intros; repeat
    match goal with
    | Hs : is_Some None |- _ => destruct (is_Some_None Hs)
    | Hc : _ /\ _ |- _ => destruct Hc
    | |- _ /\ _ => split
    end; eauto.

Lemma decode_is_Some (j : json.text) : is_Some (json.decode j) <-> fits j = true.
Proof.
  revert j. fix IH 1. intros [|b|n|s|l|ms]; simpl.
  - split; eauto.
  - split; eauto.
  - rewrite fmap_is_Some. by rewrite bool_decide_eq_true.
  - split; eauto.
  - rewrite fmap_is_Some. revert l. fix IHl 1. intros [|x l]; simpl.
    + split; eauto.
    + rewrite andb_true_iff, <- IH, <- IHl.
      destruct (json.decode x) as [v|]; simpl; [|some_cases].
      match goal with |- is_Some (?t ≫= _) <-> _ => destruct t; simpl end; some_cases.
  - rewrite fmap_is_Some. generalize (∅ : gmap string value).
    revert ms. fix IHms 1. intros [|[k x] ms] acc; simpl.
    + split; eauto.
    + rewrite andb_true_iff, <- IH.
      destruct (json.decode x) as [v|]; simpl; [|some_cases].
      rewrite IHms. some_cases.
Qed.

Lemma decode_members_is_Some (ms : list (string * json.text)) (acc : gmap string value) :
  is_Some (json.decode_members ms acc) <-> fits (json.Object ms) = true.
Proof.
  revert acc. induction ms as [|[k x] ms IH]; intros acc; simpl.
  - split; eauto.
  - rewrite andb_true_iff, <- decode_is_Some.
    destruct (json.decode x) as [v|]; simpl; [|some_cases].
    rewrite IH. simpl. some_cases.
Qed.

Section decoder.

(** [json.Unmarshal] into a map fails exactly on the refused payloads. *)
Lemma Unmarshal_refused (data : json.bytes) (mp : JSONObject) :
  refused data = true -> exists e0, json.Unmarshal data mp = Err e0.
Proof.
  destruct data as [|[|b|n|s|l|ms]]; simpl; try discriminate; eauto.
  intros Hf. apply negb_true_iff in Hf.
  destruct (json.decode_members ms (default ∅ mp)) as [m|] eqn:E; [|eauto].
  assert (is_Some (json.decode_members ms (default ∅ mp))) as Hs by eauto.
  apply decode_members_is_Some in Hs. simpl in Hs. congruence.
Qed.

Lemma Unmarshal_object (ms : list (string * json.text)) (mp : JSONObject) :
  fits (json.Object ms) = true ->
  exists m, json.decode_members ms (default ∅ mp) = Some m /\
            json.Unmarshal (json.Valid (json.Object ms)) mp = Ok (Some m).
Proof.
  intros Hf. apply (decode_members_is_Some ms (default ∅ mp)) in Hf as [m Hm].
  exists m. split; [done|]. simpl. by rewrite Hm.
Qed.

End decoder.

(** ** The claims on decoding *)

(** C2, amended.  When [UnmarshalJSON] returns an error, the stored meta
    object of the receiver is what it was; on the top-level error the
    whole receiver is what it was; and when the error names an attribute,
    that attribute and every attribute handled after it (in the order
    atime, mtime, ctime, mode, size, meta) are what they were.  The
    attributes handled before the failing key may have been set. *)
Theorem failed_decoding_leaves
    {svc : Munge} {arch : Arch}
    (data : json.bytes) (a a' : EntryAttributes) (err : error) :
  UnmarshalJSON data a = Returns (a', Some err) ->
  same_attr Ameta a a' /\
  (err = errNonObject -> a' = a) /\
  (forall k, names err (key k) ->
   forall k', (position k <= position k')%nat -> same_attr k' a a').
Proof.
  intros Hrun. unfold UnmarshalJSON in Hrun.
  destruct (json.Unmarshal data (Some ∅)) as [mp|e0].
  2:{ injection Hrun as <- <-. split; [done|]. split; [done|].
      intros k Hk. by apply errNonObject_names in Hk. }
  cut_run Hrun; read_stretches.
  all: (split; [done|]; split; [try discriminate; done|]).
  all: intros k Hk; try (by apply errMetaShape_names in Hk).
  all: apply names_inj in Hk.
  all: destruct k; try discriminate Hk.
  all: intros k' Hle; destruct k'; simpl in Hle; try lia; simpl; done.
Qed.

Lemma failed_decoding_leaves_witness :
  same_attr Ameta empty (SetAtime (time.Unix 5 0) empty) /\
  (attrMungeError "mode"
     (Errorf "mode was unexpected type %T: %v" [ArgValue (VString "x"); ArgValue (VString "x")])
   = errNonObject -> SetAtime (time.Unix 5 0) empty = empty) /\
  (forall k,
     names (attrMungeError "mode"
              (Errorf "mode was unexpected type %T: %v"
                 [ArgValue (VString "x"); ArgValue (VString "x")])) (key k) ->
     forall k', (position k <= position k')%nat ->
       same_attr k' empty (SetAtime (time.Unix 5 0) empty)).
Proof.
  apply (@failed_decoding_leaves munge.service amd64
           (json.Valid (json.Object
              [("atime", json.Number (json.int 5)); ("mode", json.Str "x");
               ("size", json.Number (json.int 1))]))).
  vm_compute. reflexivity.
Defined.

(** C2 as stated does not hold: decoding an object with a good mode and
    a meta value that is not an object returns the meta-shape error
    after the mode of the receiver has been set. *)
Lemma failed_decoding_has_set_mode :
  @UnmarshalJSON munge.service amd64
    (json.Valid (json.Object
       [("mode", json.Number (json.int 493)); ("meta", json.Str "not-an-object")]))
    empty
  = Returns (SetMode 493 empty, Some errMetaShape) /\
  HasMode empty = false /\
  HasMode (SetMode 493 empty) = true.
Proof. split; [vm_compute; reflexivity|]. split; reflexivity. Qed.



(** Whatever the coercion service, a value under ["atime"] that it
    rejects hides the shape of the mode: the error names atime. *)
Lemma mode_error_masked
    {svc : Munge} {arch : Arch}
    (j : json.text) (v : value) (err : error) (a : EntryAttributes) :
  json.decode j = Some v ->
  ToTime v = Err err ->
  UnmarshalJSON (json.Valid (json.Object [("atime", j); ("mode", json.Str "x")])) a
  = Returns (a, Some (attrMungeError "atime" err)).
Proof.
  intros Hj Hv. unfold UnmarshalJSON, json.Unmarshal. simpl. rewrite Hj. simpl.
  unfold seq, index. simpl. rewrite lookup_insert_ne by done.
  rewrite lookup_insert_eq. rewrite Hv. reflexivity.
Qed.


(** C8, amended.  [UnmarshalJSON] fails with the top-level error, and
    leaves the receiver as it was, on every payload that is not JSON, on
    every JSON text other than an object and [null], and on every object
    that holds a number out of the [float64] range.  On every payload
    that is an object whose numbers fit, it does not fail with the
    top-level error. *)
Theorem top_level_error
    {svc : Munge} {arch : Arch}
    (bad : json.bytes) (ms : list (string * json.text)) (a : EntryAttributes) :
  (refused bad = true -> UnmarshalJSON bad a = Returns (a, Some errNonObject)) /\
  (fits (json.Object ms) = true ->
   forall a' e,
     UnmarshalJSON (json.Valid (json.Object ms)) a = Returns (a', e) ->
     e <> Some errNonObject).
Proof.
  split.
  - intros Hr. destruct (Unmarshal_refused bad (Some ∅) Hr) as [e0 He0].
    by apply UnmarshalJSON_non_object with e0.
  - intros Hf a' e Hrun.
    destruct (Unmarshal_object ms (Some ∅) Hf) as (mp & _ & Hmp).
    unfold UnmarshalJSON in Hrun. rewrite Hmp in Hrun.
    cut_run Hrun; read_stretches; discriminate.
Qed.

Lemma top_level_error_witness :
  @UnmarshalJSON munge.service amd64 (json.Valid (json.Array [])) empty
  = Returns (empty, Some errNonObject) /\
  (forall a' e,
     @UnmarshalJSON munge.service amd64
       (json.Valid (json.Object [("size", json.Str "many")])) empty = Returns (a', e) ->
     e <> Some errNonObject).
Proof.
  destruct (@top_level_error munge.service amd64
              (json.Valid (json.Array [])) [("size", json.Str "many")] empty)
    as (H1 & H2).
  split; [apply H1; reflexivity|]. apply H2. reflexivity.
Defined.

(** C8 as stated does not hold: the payload [null] is not a JSON object,
    yet it is accepted and no error is returned; and an object with a
    number out of the [float64] range is refused with the top-level
    error. *)
Lemma null_payload_is_accepted :
  is_object json.Null = false /\
  @UnmarshalJSON munge.service amd64 (json.Valid json.Null) empty = Returns (empty, None) /\
  is_object (json.Object [("size", json.Number (json.mkNumber false 1 400))]) = true /\
  @UnmarshalJSON munge.service amd64
    (json.Valid (json.Object [("size", json.Number (json.mkNumber false 1 400))])) empty
  = Returns (empty, Some errNonObject).
Proof. repeat split; vm_compute; reflexivity. Qed.

(** ** The claim on [SetMeta] *)

(** C4, amended.  [SetMeta(v)] completes normally, and stores the object,
    when [v] already is a [JSONObject] and when the serialization of [v]
    is a JSON object whose numbers fit [float64].  It panics when [v], not
    a [JSONObject], cannot be serialized, and when its serialization is
    not JSON, is a JSON text other than an object and [null], or is an
    object with a number out of the [float64] range. *)
Theorem SetMeta_outcome
    (m : JSONObject) (v1 v2 v3 : object) (a : EntryAttributes) :
  SetMeta (OfValue (VMap m)) a = Returns (with_meta m a) /\
  (is_JSONObject v1 = false ->
   forall ms, serialization v1 = Some (json.Valid (json.Object ms)) ->
   fits (json.Object ms) = true ->
   exists o, json.decode_members ms ∅ = Some o /\
             SetMeta v1 a = Returns (with_meta (Some o) a)) /\
  (is_JSONObject v2 = false -> serialization v2 = None -> SetMeta v2 a = Panics) /\
  (is_JSONObject v3 = false ->
   forall data, serialization v3 = Some data -> refused data = true ->
   SetMeta v3 a = Panics).
Proof.
  split; [reflexivity|]. split; [|split].
  - intros Hv ms Hs Hf.
    destruct (Unmarshal_object ms None Hf) as (o & Ho & Hu). exists o. split; [exact Ho|].
    unfold SetMeta, ToJSONObject.
    destruct v1 as [arr|v]; simpl in Hs.
    + injection Hs as ->. by rewrite Hu.
    + destruct v; try discriminate Hv;
        (destruct (json.Marshal _) as [j|e0]; [|discriminate Hs]);
        injection Hs as ->; by rewrite Hu.
  - intros Hv Hs. unfold SetMeta, ToJSONObject.
    destruct v2 as [arr|v]; simpl in Hs; [discriminate|].
    destruct v; try discriminate Hv;
      (destruct (json.Marshal _) as [j|e0]; [discriminate Hs|]); reflexivity.
  - intros Hv data Hs Hr.
    destruct (Unmarshal_refused data None Hr) as [e0 Hu].
    unfold SetMeta, ToJSONObject.
    destruct v3 as [arr|v]; simpl in Hs.
    + injection Hs as ->. by rewrite Hu.
    + destruct v; try discriminate Hv;
        (destruct (json.Marshal _) as [j|e1]; [|discriminate Hs]);
        injection Hs as <-; by rewrite Hu.
Qed.

Lemma SetMeta_outcome_witness :
  SetMeta (OfValue (VMap (Some {["id" := VString "c1"]}))) empty
  = Returns (with_meta (Some {["id" := VString "c1"]}) empty) /\
  (exists o, json.decode_members [("Name", json.Str "c1")] ∅ = Some o /\
             SetMeta (OfValue (VStruct [("Name", VString "c1")])) empty
             = Returns (with_meta (Some o) empty)) /\
  SetMeta (OfValue (VFloat64 S754_nan)) empty = Panics /\
  SetMeta (OfBytes (json.Valid (json.Array []))) empty = Panics.
Proof.
  destruct (SetMeta_outcome (Some {["id" := VString "c1"]})
              (OfValue (VStruct [("Name", VString "c1")]))
              (OfValue (VFloat64 S754_nan))
              (OfBytes (json.Valid (json.Array []))) empty) as (H1 & H2 & H3 & H4).
  split; [exact H1|].
  split; [apply (H2 eq_refl [("Name", json.Str "c1")]); reflexivity|].
  split; [apply H3; reflexivity|].
  apply (H4 eq_refl (json.Valid (json.Array []))); reflexivity.
Defined.

(** C4 as stated does not hold: the serialization of [nil] is [null],
    which is not a JSON object, yet [SetMeta(nil)] returns (and stores no
    object); and a byte slice that spells an object with a number out of
    the [float64] range makes [SetMeta] panic. *)
Lemma SetMeta_nil_returns :
  (serialization (OfValue VNil) = Some (json.Valid json.Null) /\
   ~ serializes_to_object (OfValue VNil) /\
   SetMeta (OfValue VNil) empty = Returns empty) /\
  (serializes_to_object
     (OfBytes (json.Valid (json.Object [("n", json.Number (json.mkNumber false 1 400))]))) /\
   SetMeta
     (OfBytes (json.Valid (json.Object [("n", json.Number (json.mkNumber false 1 400))])))
     empty = Panics).
Proof.
  split; [split; [reflexivity|split; [|reflexivity]]|split; [|vm_compute; reflexivity]].
  - intros [ms Hs]. discriminate.
  - eexists. reflexivity.
Qed.

(** ** Numbers through the codec *)

Section numbers.

(** Integers below [2^53] are binary64 numbers. *)
Lemma round_ratio_small (s : bool) (n : Z) :
  0 < n < 2 ^ 53 ->
  float64.round_ratio s n 1 =
  Some (S754_finite s (Z.to_pos (n * 2 ^ (52 - Z.log2 n))) (Z.log2 n - 52)).
Proof.
  intros [Hpos Hlt].
  assert (0 <= Z.log2 n) as HL0 by apply Z.log2_nonneg.
  assert (Z.log2 n < 53) as HL by (apply Z.log2_lt_pow2; lia).
  destruct (Z.log2_spec n Hpos) as [Hlo Hhi].
  unfold float64.round_ratio, float64.emin.
  change (Z.log2 1) with 0. rewrite Z.sub_0_r.
  destruct (Z.eqb_spec n 0) as [->|_]; [lia|].
  rewrite (proj2 (Z.leb_le 0 (Z.log2 n)) HL0).
  rewrite Z.mul_1_l, (proj2 (Z.leb_le _ _) Hlo).
  rewrite Z.max_l by lia.
  assert (0 < 2 ^ (52 - Z.log2 n)) as Hp by (apply Z.pow_pos_nonneg; lia).
  assert (n * 2 ^ (52 - Z.log2 n) < 2 ^ 53) as Hm.
  { replace (2 ^ 53) with (2 ^ Z.succ (Z.log2 n) * 2 ^ (52 - Z.log2 n)).
    - apply Z.mul_lt_mono_pos_r; lia.
    - rewrite <- Z.pow_add_r by lia. f_equal. lia. }
  set (u := Z.log2 n - 52) in *.
  assert ((if 0 <=? u then n else n * 2 ^ (- u)) = n * 2 ^ (52 - Z.log2 n)) as ->.
  { destruct (Z.leb_spec 0 u).
    - replace (52 - Z.log2 n) with 0 by lia. lia.
    - f_equal. f_equal. lia. }
  assert ((if 0 <=? u then 1 * 2 ^ u else 1) = 1) as ->.
  { destruct (Z.leb_spec 0 u); [|done]. replace u with 0 by lia. done. }
  rewrite Z.div_1_r, Z.mod_1_r.
  match goal with
  | |- context [(1 <? 2 * 0) || ?b] => change ((1 <? 2 * 0) || b) with false
  end.
  cbv iota.
  destruct (Z.eqb_spec (n * 2 ^ (52 - Z.log2 n)) (2 ^ 53)) as [E|_]; [lia|].
  destruct (Z.eqb_spec (n * 2 ^ (52 - Z.log2 n)) 0) as [E|_]; [lia|].
  destruct (Z.ltb_spec 971 u) as [E|_]; [lia|]. reflexivity.
Qed.

(** An integer between [0] and [2^53] is a [float64] whose integer part
    is the integer itself. *)
Lemma of_Z_exact (n : Z) :
  0 <= n <= 2 ^ 53 ->
  exists f, float64.of_Z n = Some f /\ float64.trunc f = Some n.
Proof.
  intros [H0 H53]. unfold float64.of_Z.
  destruct (Z.ltb_spec n 0) as [?|_]; [lia|]. rewrite Z.abs_eq by lia.
  destruct (Z.eq_dec n 0) as [->|Hn0]; [eexists; split; reflexivity|].
  destruct (Z.eq_dec n (2 ^ 53)) as [->|Hn53]; [eexists; split; reflexivity|].
  rewrite round_ratio_small by lia. eexists. split; [reflexivity|].
  assert (0 <= Z.log2 n) as HL0 by apply Z.log2_nonneg.
  assert (Z.log2 n < 53) as HL by (apply Z.log2_lt_pow2; lia).
  assert (0 < 2 ^ (52 - Z.log2 n)) as Hp by (apply Z.pow_pos_nonneg; lia).
  unfold float64.trunc. rewrite Z2Pos.id by nia.
  destruct (Z.leb_spec 0 (Z.log2 n - 52)) as [Hu|Hu].
  - replace (Z.log2 n - 52) with 0 by lia. replace (52 - Z.log2 n) with 0 by lia.
    change (2 ^ 0) with 1. f_equal. lia.
  - replace (- (Z.log2 n - 52)) with (52 - Z.log2 n) by lia.
    f_equal. apply Z.div_mul. lia.
Qed.

Lemma ParseFloat_int (n : Z) : json.ParseFloat (json.int n) = float64.of_Z n.
Proof.
  unfold json.ParseFloat, json.int, float64.of_Z.
  cbn [json.exp10 json.neg json.digits]. change (0 <=? 0) with true. cbv iota.
  change (10 ^ 0) with 1. by rewrite Z.mul_1_r, N2Z.inj_abs_N.
Qed.

End numbers.

(** ** Maps through the codec *)

Section maps.

Lemma Marshal_map (m : gmap string value) :
  json.Marshal (VMap (Some m)) =
  json.Object <$>
    foldr (fun kv acc => j ← json.Marshal kv.2; js ← acc; Ok ((kv.1, j) :: js))
      (Ok []) (map_to_list m).
Proof.
  simpl. f_equal. rewrite map_fold_foldr.
  induction (map_to_list m) as [|[k x] l IH]; simpl; [done|]. by rewrite IH.
Qed.

Lemma decode_object (ms : list (string * json.text)) :
  json.decode (json.Object ms) = (fun m => VMap (Some m)) <$> json.decode_members ms ∅.
Proof.
  reflexivity.
Qed.

(** Members that go through one by one go through together, and land
    on their own names. *)
Lemma members_pass (l0 : list (string * value)) :
  NoDup l0.*1 ->
  Forall (fun kv => exists v', passes kv.2 v') l0 ->
  exists l,
    foldr (fun kv acc => j ← json.Marshal kv.2; js ← acc; Ok ((kv.1, j) :: js))
      (Ok []) l0 = Ok l /\
    forall acc, exists mp,
      json.decode_members l acc = Some mp /\
      forall k,
        (k ∉ l0.*1 -> mp !! k = acc !! k) /\
        (forall v, (k, v) ∈ l0 -> exists v', mp !! k = Some v' /\ passes v v').
Proof.
  induction l0 as [|[k0 v0] l0 IH]; intros Hnd Hall.
  - exists []. split; [done|]. intros acc. exists acc. split; [done|].
    intros k. split; [done|]. intros v Hin. by apply elem_of_nil in Hin.
  - apply NoDup_cons in Hnd as [Hk0 Hnd]. apply Forall_cons in Hall as [Hv0 Hall].
    destruct (IH Hnd Hall) as (l & Hl & Hdec). destruct Hv0 as (v0' & j0 & Hj0 & Hd0).
    simpl in Hj0, Hd0.
    exists ((k0, j0) :: l). split.
    { simpl. rewrite Hj0. simpl. rewrite Hl. done. }
    intros acc. destruct (Hdec (<[k0 := v0']> acc)) as (mp & Hmp & Hk).
    exists mp. split; [simpl; rewrite Hd0; exact Hmp|].
    intros k. split.
    + intros Hnot. apply not_elem_of_cons in Hnot as [Hne Hnot].
      rewrite (proj1 (Hk k) Hnot). by rewrite lookup_insert_ne.
    + intros v Hin. apply elem_of_cons in Hin as [Heq|Hin].
      * injection Heq as -> ->. exists v0'. split; [|by exists j0].
        rewrite (proj1 (Hk k0) Hk0). apply lookup_insert_eq.
      * by apply (proj2 (Hk k)).
Qed.

(** A map whose values go through the codec goes through it: every
    name keeps a value that its old value passes to, and no name is
    added. *)
Lemma map_passes (m : gmap string value) :
  map_Forall (fun _ v => exists v', passes v v') m ->
  exists m',
    passes (VMap (Some m)) (VMap (Some m')) /\
    forall k,
      (m !! k = None -> m' !! k = None) /\
      (forall v, m !! k = Some v -> exists v', m' !! k = Some v' /\ passes v v').
Proof.
  intros Hall.
  destruct (members_pass (map_to_list m)) as (l & Hl & Hdec).
  { apply NoDup_fst_map_to_list. }
  { apply Forall_forall. intros [k v] Hin. apply elem_of_map_to_list in Hin.
    exact (Hall k v Hin). }
  destruct (Hdec ∅) as (m' & Hm' & Hk). exists m'. split.
  - exists (json.Object l). split.
    + rewrite Marshal_map, Hl. done.
    + rewrite decode_object, Hm'. done.
  - intros k. split.
    + intros Hnone. rewrite (proj1 (Hk k)); [done|].
      intros Hin. apply list_elem_of_fmap in Hin as ([k' v] & -> & Hin).
      apply elem_of_map_to_list in Hin. simpl in Hnone. congruence.
    + intros v Hv. apply (proj2 (Hk k)). by apply elem_of_map_to_list.
Qed.

Lemma passes_fun (v v1 v2 : value) : passes v v1 -> passes v v2 -> v1 = v2.
Proof. intros (j1 & Hj1 & Hd1) (j2 & Hj2 & Hd2). congruence. Qed.

Lemma passes_time (t : time.Time) (s : string) :
  time.MarshalJSON t = Some s -> passes (VTime t) (VString s).
Proof. intros Ht. exists (json.Str s). simpl. by rewrite Ht. Qed.

Lemma passes_string (s : string) : passes (VString s) (VString s).
Proof. by exists (json.Str s). Qed.

Lemma passes_uint64 (n : Z) (f : float64.t) :
  float64.of_Z n = Some f -> passes (VUint64 n) (VFloat64 f).
Proof.
  intros Hf. exists (json.Number (json.int n)). split; [done|].
  simpl. by rewrite ParseFloat_int, Hf.
Qed.

Lemma passes_FileMode (n : Z) (f : float64.t) :
  float64.of_Z n = Some f -> passes (VFileMode n) (VFloat64 f).
Proof.
  intros Hf. exists (json.Number (json.int n)). split; [done|].
  simpl. by rewrite ParseFloat_int, Hf.
Qed.

End maps.

(** ** Encoding, then decoding *)

Section roundtrip.
Context {svc : Munge} {arch : Arch}.

Lemma Time_eqb_eq (t1 t2 : time.Time) : Time_eqb t1 t2 = true -> t1 = t2.
Proof.
  destruct t1, t2. unfold Time_eqb. simpl. intros Hb.
  apply andb_prop in Hb as [H1 H2]. apply Z.eqb_eq in H1, H2. congruence.
Qed.

Lemma time_survives_inv (t : time.Time) :
  time_survives t = true ->
  exists s, time.MarshalJSON t = Some s /\ ToTime (VString s) = Ok t.
Proof.
  unfold time_survives. destruct (time.MarshalJSON t) as [s|]; [|discriminate].
  destruct (ToTime (VString s)) as [t'|] eqn:E; [|discriminate].
  intros Hb. apply Time_eqb_eq in Hb as ->. eauto.
Qed.

Lemma size_survives_inv (sz : Z) :
  size_survives sz = true ->
  exists f, float64.of_Z sz = Some f /\ ToSize (VFloat64 f) = Ok sz.
Proof.
  unfold size_survives. destruct (float64.of_Z sz) as [f|]; [|discriminate].
  destruct (ToSize (VFloat64 f)) as [n|] eqn:E; [|discriminate].
  intros Hb. apply Z.eqb_eq in Hb as ->. eauto.
Qed.

Lemma FileMode_of_float64_exact (n : Z) (f : float64.t) :
  0 <= n < 2 ^ 32 -> float64.trunc f = Some n -> FileMode_of_float64 f = n.
Proof.
  intros [H0 H32] Ht. unfold FileMode_of_float64. rewrite Ht.
  destruct (Z.leb_spec 0 n); [|lia]. destruct (Z.ltb_spec n (2 ^ 32)); [done|lia].
Qed.

End roundtrip.

(** The coercion service at hand recovers every size up to [2^53]. *)
Lemma munge_size_survives (sz : Z) :
  0 <= sz <= 2 ^ 53 -> @size_survives munge.service sz = true.
Proof.
  intros Hsz. destruct (of_Z_exact sz Hsz) as (f & Hf & Ht).
  unfold size_survives. rewrite Hf. simpl. unfold munge.ToSize. rewrite Ht.
  destruct (Z.leb_spec 0 sz); [|lia].
  destruct (Z.ltb_spec sz (2 ^ 64)); [|lia]. simpl. apply Z.eqb_refl.
Qed.

(** No coercion service recovers both [2^53] and [2^53 + 1]: they have
    the same nearest [float64]. *)
Lemma size_beyond_float64 (svc : Munge) :
  @size_survives svc (2 ^ 53) = true -> @size_survives svc (2 ^ 53 + 1) = false.
Proof.
  unfold size_survives.
  change (float64.of_Z (2 ^ 53 + 1)) with (float64.of_Z (2 ^ 53)).
  destruct (float64.of_Z (2 ^ 53)) as [f|]; [|done].
  destruct (ToSize (VFloat64 f)) as [n|]; [|done].
  intros Hn. apply Z.eqb_eq in Hn as ->. reflexivity.
Qed.

(** C1, amended.  For every record with non-zero atime, mtime and ctime,
    a mode and a size set and no meta override, such that each time can
    be written by [Time.MarshalJSON] (years 0 to 9999) and is converted
    back from the written string by the coercion service, and such that
    the coercion service converts the [float64] nearest to the size back
    to the size (the nearest [float64] is the size itself up to [2^53]),
    encoding succeeds and decoding the result, into any receiver, returns
    no error and yields the atime, mtime, ctime, mode and size of the
    record. *)
Theorem encode_then_decode
    {svc : Munge} {arch : Arch} (r a0 : EntryAttributes) :
  HasAtime r = true -> HasMtime r = true -> HasCtime r = true ->
  HasMode r = true -> HasSize r = true -> meta r = None ->
  0 <= Mode r < 2 ^ 32 ->
  time_survives (Atime r) = true ->
  time_survives (Mtime r) = true ->
  time_survives (Ctime r) = true ->
  size_survives (Size r) = true ->
  exists data a',
    MarshalJSON r = Ok data /\
    UnmarshalJSON data a0 = Returns (a', None) /\
    Atime a' = Atime r /\ Mtime a' = Mtime r /\ Ctime a' = Ctime r /\
    HasMode a' = true /\ Mode a' = Mode r /\
    HasSize a' = true /\ Size a' = Size r.
Proof.
  intros Ha Hm Hc Hmode Hsize Hmeta Hrange Hta Htm Htc Hsz.
  apply time_survives_inv in Hta as (sa & Hsa & Hpa).
  apply time_survives_inv in Htm as (sm & Hsm & Hpm).
  apply time_survives_inv in Htc as (sc & Hsc & Hpc).
  apply size_survives_inv in Hsz as (fs & Hfs & Hps).
  destruct (of_Z_exact (Mode r)) as (fm & Hfm & Htm); [lia|].
  (* the meta view *)
  destruct (map_passes (ToMap r false)) as (m0' & Hp0 & _).
  { unfold ToMap, ToMap_body. rewrite Ha, Hm, Hc, Hmode, Hsize.
    repeat apply map_Forall_insert_2; [..|apply map_Forall_empty];
      eauto using passes_time, passes_string, passes_uint64. }
  (* the encoded map *)
  set (m := <["mode" := VFileMode (Mode r)]> (ToMap r true)).
  destruct (map_passes m) as (m' & (j & Hj & Hd) & Hk).
  { unfold m, ToMap, ToMap_body. rewrite Ha, Hm, Hc, Hmode, Hsize.
    rewrite (Meta_unset r Hmeta).
    repeat apply map_Forall_insert_2; [..|apply map_Forall_empty];
      eauto using passes_time, passes_string, passes_uint64, passes_FileMode. }
  assert (forall k v v', m !! k = Some v -> passes v v' -> m' !! k = Some v') as Hget.
  { intros k v v' Hv Hp. destruct (proj2 (Hk k) v Hv) as (v'' & Hv'' & Hp'').
    by rewrite (passes_fun _ _ _ Hp Hp''). }
  assert (m' !! "atime" = Some (VString sa)) as Ea.
  { apply Hget with (VTime (Atime r)); [|by apply passes_time].
    unfold m, ToMap, ToMap_body. rewrite Ha, Hm, Hc, Hmode, Hsize. by simplify_map_eq. }
  assert (m' !! "mtime" = Some (VString sm)) as Em.
  { apply Hget with (VTime (Mtime r)); [|by apply passes_time].
    unfold m, ToMap, ToMap_body. rewrite Ha, Hm, Hc, Hmode, Hsize. by simplify_map_eq. }
  assert (m' !! "ctime" = Some (VString sc)) as Ec.
  { apply Hget with (VTime (Ctime r)); [|by apply passes_time].
    unfold m, ToMap, ToMap_body. rewrite Ha, Hm, Hc, Hmode, Hsize. by simplify_map_eq. }
  assert (m' !! "mode" = Some (VFloat64 fm)) as Emode.
  { apply Hget with (VFileMode (Mode r)); [|by apply passes_FileMode].
    unfold m. by simplify_map_eq. }
  assert (m' !! "size" = Some (VFloat64 fs)) as Esize.
  { apply Hget with (VUint64 (Size r)); [|by apply passes_uint64].
    unfold m, ToMap, ToMap_body. rewrite Ha, Hm, Hc, Hmode, Hsize. by simplify_map_eq. }
  assert (m' !! "meta" = Some (VMap (Some m0'))) as Emeta.
  { apply Hget with (VMap (Some (ToMap r false))); [|done].
    unfold m. rewrite lookup_insert_ne by done. rewrite ToMap_true_meta.
    by rewrite (Meta_unset r Hmeta). }
  (* the text is an object, and the decoder reads it back as [m'] *)
  rewrite Marshal_map in Hj.
  destruct (foldr _ _ (map_to_list m)) as [l|e0] eqn:El; [|discriminate].
  injection Hj as <-. rewrite decode_object in Hd.
  destruct (json.decode_members l ∅) as [mp|] eqn:Emp; [|discriminate].
  injection Hd as ->.
  exists (json.Valid (json.Object l)). eexists. split.
  { unfold MarshalJSON. rewrite Hmode. fold m. rewrite Marshal_map, El. done. }
  split.
  { assert (json.Unmarshal (json.Valid (json.Object l)) (Some ∅) = Ok (Some m')) as Hu.
    { unfold json.Unmarshal. simpl. by rewrite Emp. }
    unfold UnmarshalJSON. rewrite Hu. unfold index. simpl.
    rewrite Ea, Em, Ec, Emode, Esize, Emeta.
    rewrite Hpa, Hpm, Hpc, Hps. reflexivity. }
  simpl. repeat split; try done.
  by apply FileMode_of_float64_exact.
Qed.

Lemma encode_then_decode_witness :
  exists data a',
    MarshalJSON
      (SetSize 4096 (SetMode 493 (SetCtime (time.Unix 1551434400 0)
        (SetMtime (time.Unix 1551520800 500000000)
          (SetAtime (time.Unix 1551607200 123456789) empty))))) = Ok data /\
    @UnmarshalJSON munge.service amd64 data empty = Returns (a', None) /\
    Atime a' = time.Unix 1551607200 123456789 /\
    Mtime a' = time.Unix 1551520800 500000000 /\
    Ctime a' = time.Unix 1551434400 0 /\
    HasMode a' = true /\ Mode a' = 493 /\
    HasSize a' = true /\ Size a' = 4096.
Proof.
  apply (@encode_then_decode munge.service amd64
           (SetSize 4096 (SetMode 493 (SetCtime (time.Unix 1551434400 0)
              (SetMtime (time.Unix 1551520800 500000000)
                 (SetAtime (time.Unix 1551607200 123456789) empty))))) empty);
    try (vm_compute; reflexivity); simpl; lia.
Defined.

(** C1 as stated does not hold: a record whose size is [2^53 + 1] is
    encoded, and decoded without an error, with the size [2^53]; and a
    record whose atime lies in the year 10000 cannot be encoded at all. *)
Lemma size_lost_beyond_float64 :
  (exists data a',
     MarshalJSON
       (SetSize 9007199254740993 (SetMode 493 (SetCtime (time.Unix 3 0)
         (SetMtime (time.Unix 2 0) (SetAtime (time.Unix 1 0) empty))))) = Ok data /\
     @UnmarshalJSON munge.service amd64 data empty = Returns (a', None) /\
     Size a' = 9007199254740992 /\
     Size a' <>
     Size (SetSize 9007199254740993 (SetMode 493 (SetCtime (time.Unix 3 0)
             (SetMtime (time.Unix 2 0) (SetAtime (time.Unix 1 0) empty)))))) /\
  (HasAtime (SetAtime (time.Unix 253402300800 0) empty) = true /\
   exists e,
     MarshalJSON
       (SetSize 1 (SetMode 493 (SetCtime (time.Unix 3 0)
         (SetMtime (time.Unix 2 0) (SetAtime (time.Unix 253402300800 0) empty)))))
     = Err e).
Proof.
  split.
  - eexists _, _. split; [vm_compute; reflexivity|].
    split; [vm_compute; reflexivity|]. split; [reflexivity|]. simpl. discriminate.
  - split; [reflexivity|]. eexists. vm_compute. reflexivity.
Qed.

(** * Further results *)

(** ** The builder pattern *)

(** X1. Setters of different attributes commute: a chain of two such
    calls gives the same record, or panics alike, in either order. *)
Theorem setters_commute (c1 c2 : setter) (a : EntryAttributes) :
  attr_of c1 <> attr_of c2 ->
  chain [c1; c2] a = chain [c2; c1] a.
Proof.
  intros Hne.
  destruct c1, c2; simpl in *; try (by destruct Hne); try reflexivity;
    unfold SetMeta; simpl;
    match goal with
    | |- context [ToJSONObject ?obj] => destruct (ToJSONObject obj)
    end; reflexivity.
Qed.

Lemma setters_commute_witness :
  chain [CallSetSize 0; CallSetMeta (OfValue (VStruct [("id", VString "c")]))] empty
  = chain [CallSetMeta (OfValue (VStruct [("id", VString "c")])); CallSetSize 0] empty.
Proof.
  apply (setters_commute (CallSetSize 0)
           (CallSetMeta (OfValue (VStruct [("id", VString "c")]))) empty).
  discriminate.
Defined.

(** X2. A setter writes its own attribute and nothing else: every other
    attribute of the returned record is what it was.  A second call of a
    setter for the same attribute overrides the first. *)
Theorem setter_writes_one_attribute
    (c c' : setter) (a a1 : EntryAttributes) :
  invoke c a = Returns a1 ->
  (forall k, k <> attr_of c -> same_attr k a a1) /\
  (attr_of c' = attr_of c -> invoke c' a1 = invoke c' a).
Proof.
  intros Hi. split.
  - intros k Hk.
    destruct c; simpl in Hi;
      try (injection Hi as <-; destruct k; simpl in *; done).
    unfold SetMeta in Hi. destruct (ToJSONObject obj); [|discriminate].
    injection Hi as <-. destruct k; simpl in *; done.
  - intros Hattr.
    destruct c; simpl in Hi;
      try (injection Hi as <-; destruct c'; simpl in *; try discriminate; reflexivity).
    unfold SetMeta in Hi. destruct (ToJSONObject obj); [|discriminate].
    injection Hi as <-. destruct c'; simpl in *; try discriminate. reflexivity.
Qed.

Lemma setter_writes_one_attribute_witness :
  (forall k, k <> Asize -> same_attr k (SetMode 420 empty) (SetSize 7 (SetMode 420 empty))) /\
  (Asize = Asize ->
   invoke (CallSetSize 9) (SetSize 7 (SetMode 420 empty))
   = invoke (CallSetSize 9) (SetMode 420 empty)).
Proof.
  apply (setter_writes_one_attribute (CallSetSize 7) (CallSetSize 9) (SetMode 420 empty)).
  reflexivity.
Defined.

(** ** The projection *)

Lemma key_inj (k1 k2 : attr) : key k1 = key k2 -> k1 = k2.
Proof. destruct k1, k2; simpl; intros E; try discriminate E; reflexivity. Qed.

(** The entries of [ToMap], key by key. *)
Lemma ToMap_lookup (a : EntryAttributes) (includeMeta : bool) :
  (forall k,
     ToMap a includeMeta !! key k =
     match k with
     | Ameta => if includeMeta then shown Ameta a else None
     | _ => shown k a
     end) /\
  (forall s, is_Some (ToMap a includeMeta !! s) -> exists k, s = key k).
Proof.
  split.
  - intros k. unfold ToMap, ToMap_body, shown.
    destruct k, includeMeta, (HasAtime a), (HasMtime a), (HasCtime a),
      (HasMode a), (HasSize a); simpl; by simplify_map_eq.
  - intros s Hs. unfold ToMap, ToMap_body in Hs.
    destruct (decide (s = "atime")) as [->|?]; [by exists Aatime|].
    destruct (decide (s = "mtime")) as [->|?]; [by exists Amtime|].
    destruct (decide (s = "ctime")) as [->|?]; [by exists Actime|].
    destruct (decide (s = "mode")) as [->|?]; [by exists Amode|].
    destruct (decide (s = "size")) as [->|?]; [by exists Asize|].
    destruct (decide (s = "meta")) as [->|?]; [by exists Ameta|].
    exfalso.
    destruct includeMeta, (HasAtime a), (HasMtime a), (HasCtime a),
      (HasMode a), (HasSize a); simplify_map_eq; by destruct Hs.
Qed.

(** X3. [ToMap] holds exactly the present attributes: under the key of
    a time, the mode or the size there is an entry exactly when the
    attribute is present (a size of zero included), with the time, the
    display string of the mode or the size; under ["meta"] there is
    [Meta()] exactly when the meta was asked for; and there is no other
    key. *)
Theorem ToMap_entries (a : EntryAttributes) (includeMeta : bool) :
  (forall k,
     ToMap a includeMeta !! key k =
     match k with
     | Ameta => if includeMeta then shown Ameta a else None
     | _ => shown k a
     end) /\
  (forall s, is_Some (ToMap a includeMeta !! s) -> exists k, s = key k).
Proof. apply ToMap_lookup. Qed.

(** ** Encoding *)

Section encoding.

(** The members written for a list of entries carry the names of the
    entries, in order, each with the text of its value. *)
Lemma marshal_entries (l0 : list (string * value)) (l : list (string * json.text)) :
  foldr (fun kv acc => j ← json.Marshal kv.2; js ← acc; Ok ((kv.1, j) :: js))
    (Ok []) l0 = Ok l ->
  Forall2 (fun kv kj => kv.1 = kj.1 /\ json.Marshal kv.2 = Ok kj.2) l0 l.
Proof.
  revert l. induction l0 as [|[k v] l0 IH]; intros l Hl; simpl in Hl.
  - injection Hl as <-. constructor.
  - destruct (json.Marshal v) as [j|e] eqn:Ej; [|discriminate]. simpl in Hl.
    destruct (foldr _ _ l0) as [js|e]; [|discriminate]. simpl in Hl.
    injection Hl as <-. constructor; [done|]. by apply IH.
Qed.

Lemma marshal_entries_fail (l0 : list (string * value)) (e : error) :
  foldr (fun kv acc => j ← json.Marshal kv.2; js ← acc; Ok ((kv.1, j) :: js))
    (Ok []) l0 = Err e ->
  exists kv e', kv ∈ l0 /\ json.Marshal kv.2 = Err e'.
Proof.
  revert e. induction l0 as [|[k v] l0 IH]; intros e Hl; simpl in Hl; [discriminate|].
  destruct (json.Marshal v) as [j|e'] eqn:Ej.
  - simpl in Hl. destruct (foldr _ _ l0) as [js|e'']; [discriminate|].
    destruct (IH e'' eq_refl) as (kv & e' & Hin & He'). exists kv, e'. split; [|done].
    by apply list_elem_of_further.
  - exists (k, v), e'. split; [apply list_elem_of_here|done].
Qed.

(** The text of a map: an object that names each key once, with the
    text of its value. *)
Lemma Marshal_map_members (m : gmap string value) (j : json.text) :
  json.Marshal (VMap (Some m)) = Ok j ->
  exists l,
    j = json.Object l /\ NoDup l.*1 /\
    forall k j', (k, j') ∈ l <-> exists v, m !! k = Some v /\ json.Marshal v = Ok j'.
Proof.
  rewrite Marshal_map. intros Hj.
  destruct (foldr _ _ (map_to_list m)) as [l|e] eqn:El; [|discriminate].
  injection Hj as <-. exists l. split; [done|].
  apply marshal_entries in El.
  assert (l.*1 = (map_to_list m).*1) as Hkeys.
  { clear -El. induction El as [|[k v] [k' j'] l0 l [Hk _] _ IH]; csimpl in *; [done|].
    congruence. }
  split; [rewrite Hkeys; apply NoDup_fst_map_to_list|].
  intros k j'. split.
  - intros Hin. apply list_elem_of_lookup in Hin as [i Hi].
    destruct (Forall2_lookup_r _ _ _ _ _ El Hi) as ([k0 v] & Hv & Hk & Hm).
    simpl in Hk, Hm. subst k0. exists v. split; [|done].
    apply elem_of_map_to_list. by apply list_elem_of_lookup_2 in Hv.
  - intros (v & Hv & Hm). apply elem_of_map_to_list in Hv.
    apply list_elem_of_lookup in Hv as [i Hi].
    destruct (Forall2_lookup_l _ _ _ _ _ El Hi) as ([k0 j0] & Hj0 & Hk & Hm0).
    simpl in Hk, Hm0. subst k0. rewrite Hm in Hm0. injection Hm0 as <-.
    by apply list_elem_of_lookup_2 in Hj0.
Qed.

(** A map is written exactly when each of its values is. *)
Lemma Marshal_map_Ok (m : gmap string value) :
  (exists j, json.Marshal (VMap (Some m)) = Ok j) <->
  map_Forall (fun _ v => exists j, json.Marshal v = Ok j) m.
Proof.
  split.
  - intros [j Hj]. destruct (Marshal_map_members m j Hj) as (l & -> & _ & Hl).
    intros k v Hv. rewrite Marshal_map in Hj.
    destruct (foldr _ _ (map_to_list m)) as [l'|e] eqn:El; [|discriminate].
    injection Hj as <-. apply marshal_entries in El.
    apply elem_of_map_to_list in Hv. apply list_elem_of_lookup in Hv as [i Hi].
    destruct (Forall2_lookup_l _ _ _ _ _ El Hi) as ([k0 j0] & _ & _ & Hm0). eauto.
  - intros Hall. rewrite Marshal_map.
    destruct (foldr _ _ (map_to_list m)) as [l|e] eqn:El; [by eexists|].
    apply marshal_entries_fail in El as ([k v] & e' & Hin & He').
    apply elem_of_map_to_list in Hin. destruct (Hall k v Hin) as [j Hj].
    simpl in He'. congruence.
Qed.

End encoding.

Section encoded.

Lemma MarshalJSON_unfold (a : EntryAttributes) :
  MarshalJSON a =
  json.Valid <$>
    json.Marshal
      (VMap (Some (if HasMode a
                   then <["mode" := VFileMode (Mode a)]> (ToMap a true)
                   else ToMap a true))).
Proof. reflexivity. Qed.

Lemma encoded_entries (a : EntryAttributes) :
  let m := if HasMode a
           then <["mode" := VFileMode (Mode a)]> (ToMap a true)
           else ToMap a true in
  (forall k, m !! key k = sent k a) /\
  (forall s, is_Some (m !! s) -> exists k, s = key k).
Proof.
  destruct (ToMap_lookup a true) as [Hk Hs]. cbv zeta. split.
  - intros k. destruct (HasMode a) eqn:Hm.
    + destruct k; unfold sent; cbn [key];
        first [ rewrite lookup_insert_eq; by rewrite Hm
              | rewrite lookup_insert_ne by done ].
      * apply (Hk Aatime).
      * apply (Hk Amtime).
      * apply (Hk Actime).
      * apply (Hk Asize).
      * apply (Hk Ameta).
    + rewrite Hk. destruct k; unfold sent; try done. unfold shown. by rewrite Hm.
  - intros s Hsome. destruct (HasMode a); [|by apply Hs].
    destruct (decide (s = "mode")) as [->|Hne]; [by exists Amode|].
    rewrite lookup_insert_ne in Hsome by done. by apply Hs.
Qed.

Lemma time_MarshalJSON_Some (t : time.Time) :
  is_Some (time.MarshalJSON t) <-> year_in_range t = true.
Proof.
  unfold time.MarshalJSON, year_in_range.
  destruct (Z.ltb_spec (time.Year t) 0), (Z.leb_spec 10000 (time.Year t)),
    (Z.leb_spec 0 (time.Year t)), (Z.ltb_spec (time.Year t) 10000);
    simpl; try lia; split; intros Hx; try done; try (by destruct Hx); eauto.
Qed.

Lemma Marshal_time (t : time.Time) (j : json.text) :
  json.Marshal (VTime t) = Ok j <-> exists s, time.MarshalJSON t = Some s /\ j = json.Str s.
Proof.
  simpl. destruct (time.MarshalJSON t) as [s|]; split.
  - intros E. injection E as <-. eauto.
  - intros (s' & E & ->). by injection E as ->.
  - discriminate.
  - intros (s' & E & _). discriminate.
Qed.

Lemma Marshal_Meta (a : EntryAttributes) (j : json.text) :
  json.Marshal (VMap (Meta a)) = Ok j -> is_object j = true.
Proof.
  unfold Meta. destruct (meta a) as [m|]; rewrite Marshal_map;
    destruct (foldr _ _ _); simpl; intros E; try discriminate; by injection E as <-.
Qed.

(** The members of what [MarshalJSON] writes, all at once. *)
Lemma MarshalJSON_members_all (a : EntryAttributes) (data : json.bytes) :
  MarshalJSON a = Ok data ->
  exists l,
    data = json.Valid (json.Object l) /\ NoDup l.*1 /\
    (forall s j, (s, j) ∈ l <->
       exists k v, s = key k /\ sent k a = Some v /\ json.Marshal v = Ok j) /\
    (exists j, ("meta", j) ∈ l /\ json.Marshal (VMap (Meta a)) = Ok j).
Proof.
  rewrite MarshalJSON_unfold. destruct (encoded_entries a) as [Hk Hs].
  cbv zeta in Hk, Hs. set (m := if HasMode a then _ else _) in *.
  destruct (json.Marshal (VMap (Some m))) as [j0|e] eqn:Ej; [|discriminate].
  intros E. injection E as <-.
  destruct (Marshal_map_members m j0 Ej) as (l & -> & Hnd & Hl).
  exists l. split; [done|]. split; [done|]. split.
  - intros s j. rewrite Hl. split.
    + intros (v & Hv & Hj). destruct (Hs s) as [k ->]; [eauto|].
      rewrite Hk in Hv. eauto.
    + intros (k & v & -> & Hv & Hj). exists v. by rewrite Hk.
  - pose proof (Hk Ameta) as Kmeta. cbn [key sent shown] in Kmeta.
    assert (exists j, json.Marshal (VMap (Meta a)) = Ok j) as [j Hj].
    { apply (proj1 (Marshal_map_Ok m)) with (i := "meta"); [eauto|]. exact Kmeta. }
    exists j. split; [|done]. apply Hl. eauto.
Qed.

End encoded.

(** X4. What [MarshalJSON] writes is an object that names no key twice
    and only keys of attributes.  Its ["mode"] member is there exactly
    when the mode is present and is the number of the mode, not its
    display string; its ["size"] member likewise is the number of the
    size; a time member is there exactly when the time is present and is
    the RFC 3339 string of the time; and the ["meta"] member is always
    there and is an object, never [null]. *)
Theorem MarshalJSON_members (a : EntryAttributes) (data : json.bytes) :
  MarshalJSON a = Ok data ->
  exists l,
    data = json.Valid (json.Object l) /\ NoDup l.*1 /\
    (forall s j, (s, j) ∈ l -> exists k, s = key k) /\
    (forall j, ("mode", j) ∈ l <->
               HasMode a = true /\ j = json.Number (json.int (Mode a))) /\
    (forall j, ("size", j) ∈ l <->
               HasSize a = true /\ j = json.Number (json.int (Size a))) /\
    (forall j, ("atime", j) ∈ l <->
               HasAtime a = true /\
               exists s, time.MarshalJSON (Atime a) = Some s /\ j = json.Str s) /\
    (forall j, ("mtime", j) ∈ l <->
               HasMtime a = true /\
               exists s, time.MarshalJSON (Mtime a) = Some s /\ j = json.Str s) /\
    (forall j, ("ctime", j) ∈ l <->
               HasCtime a = true /\
               exists s, time.MarshalJSON (Ctime a) = Some s /\ j = json.Str s) /\
    (exists j, ("meta", j) ∈ l /\ is_object j = true).
Proof.
  rewrite MarshalJSON_unfold. destruct (encoded_entries a) as [Hk Hs].
  cbv zeta in Hk, Hs. set (m := if HasMode a then _ else _) in *.
  pose proof (Hk Aatime) as Ka. pose proof (Hk Amtime) as Km.
  pose proof (Hk Actime) as Kc. pose proof (Hk Amode) as Kmode.
  pose proof (Hk Asize) as Ksize. pose proof (Hk Ameta) as Kmeta.
  cbn [key sent shown] in Ka, Km, Kc, Kmode, Ksize, Kmeta.
  destruct (json.Marshal (VMap (Some m))) as [j0|e] eqn:Ej; [|discriminate].
  intros E. injection E as <-.
  destruct (Marshal_map_members m j0 Ej) as (l & -> & Hnd & Hl).
  exists l. split; [done|]. split; [done|].
  split; [|split; [|split; [|split; [|split; [|split]]]]].
  - intros s j Hin. apply Hl in Hin as (v & Hv & _). apply Hs. eauto.
  - intros j. rewrite Hl, Kmode. destruct (HasMode a); split.
    + intros (v & E & Hm). injection E as <-. simpl in Hm. by injection Hm as <-.
    + intros [_ ->]. eauto.
    + intros (v & E & _). discriminate.
    + intros [E _]. discriminate.
  - intros j. rewrite Hl, Ksize. destruct (HasSize a); split.
    + intros (v & E & Hm). injection E as <-. simpl in Hm. by injection Hm as <-.
    + intros [_ ->]. eauto.
    + intros (v & E & _). discriminate.
    + intros [E _]. discriminate.
  - intros j. rewrite Hl, Ka. destruct (HasAtime a); split.
    + intros (v & E & Hm). injection E as <-. by apply Marshal_time in Hm.
    + intros [_ Hm]. apply Marshal_time in Hm. eauto.
    + intros (v & E & _). discriminate.
    + intros [E _]. discriminate.
  - intros j. rewrite Hl, Km. destruct (HasMtime a); split.
    + intros (v & E & Hm). injection E as <-. by apply Marshal_time in Hm.
    + intros [_ Hm]. apply Marshal_time in Hm. eauto.
    + intros (v & E & _). discriminate.
    + intros [E _]. discriminate.
  - intros j. rewrite Hl, Kc. destruct (HasCtime a); split.
    + intros (v & E & Hm). injection E as <-. by apply Marshal_time in Hm.
    + intros [_ Hm]. apply Marshal_time in Hm. eauto.
    + intros (v & E & _). discriminate.
    + intros [E _]. discriminate.
  - assert (exists j, json.Marshal (VMap (Meta a)) = Ok j) as [j Hj].
    { apply (proj1 (Marshal_map_Ok m)) with (i := "meta"); [eauto|]. exact Kmeta. }
    exists j. split; [|by apply Marshal_Meta in Hj].
    apply Hl. exists (VMap (Meta a)). split; [exact Kmeta|done].
Qed.

Lemma MarshalJSON_members_witness :
  exists l,
    json.Valid (json.Object
      [("size", json.Number (json.int 0)); ("mode", json.Number (json.int 493));
       ("meta", json.Object [("size", json.Number (json.int 0));
                             ("mode", json.Str "-rwxr-xr-x")])])
    = json.Valid (json.Object l) /\ NoDup l.*1 /\
    (forall s j, (s, j) ∈ l -> exists k, s = key k) /\
    (forall j, ("mode", j) ∈ l <->
               HasMode (SetSize 0 (SetMode 493 empty)) = true /\
               j = json.Number (json.int (Mode (SetSize 0 (SetMode 493 empty))))) /\
    (forall j, ("size", j) ∈ l <->
               HasSize (SetSize 0 (SetMode 493 empty)) = true /\
               j = json.Number (json.int (Size (SetSize 0 (SetMode 493 empty))))) /\
    (forall j, ("atime", j) ∈ l <->
               HasAtime (SetSize 0 (SetMode 493 empty)) = true /\
               exists s, time.MarshalJSON (Atime (SetSize 0 (SetMode 493 empty))) = Some s /\
                         j = json.Str s) /\
    (forall j, ("mtime", j) ∈ l <->
               HasMtime (SetSize 0 (SetMode 493 empty)) = true /\
               exists s, time.MarshalJSON (Mtime (SetSize 0 (SetMode 493 empty))) = Some s /\
                         j = json.Str s) /\
    (forall j, ("ctime", j) ∈ l <->
               HasCtime (SetSize 0 (SetMode 493 empty)) = true /\
               exists s, time.MarshalJSON (Ctime (SetSize 0 (SetMode 493 empty))) = Some s /\
                         j = json.Str s) /\
    (exists j, ("meta", j) ∈ l /\ is_object j = true).
Proof.
  apply (MarshalJSON_members (SetSize 0 (SetMode 493 empty))).
  vm_compute. reflexivity.
Defined.

(** The values of [ToMap(false)] are written exactly when the present
    times are. *)
Lemma projection_written (a : EntryAttributes) :
  map_Forall (fun _ v => exists j, json.Marshal v = Ok j) (ToMap a false) <->
  (HasAtime a = true -> year_in_range (Atime a) = true) /\
  (HasMtime a = true -> year_in_range (Mtime a) = true) /\
  (HasCtime a = true -> year_in_range (Ctime a) = true).
Proof.
  destruct (ToMap_lookup a false) as [Hk Hs].
  pose proof (Hk Aatime) as Ka. pose proof (Hk Amtime) as Km.
  pose proof (Hk Actime) as Kc. cbn [key shown] in Ka, Km, Kc.
  assert (forall t, (exists j, json.Marshal (VTime t) = Ok j) <-> year_in_range t = true)
    as Ht.
  { intros t. rewrite <- time_MarshalJSON_Some. split.
    - intros [j Hj]. apply Marshal_time in Hj as (s & -> & _). eauto.
    - intros [s Es]. exists (json.Str s). apply Marshal_time. eauto. }
  split.
  - intros Hall. repeat split; intros Hp; apply Ht.
    + apply (Hall "atime"). by rewrite Ka, Hp.
    + apply (Hall "mtime"). by rewrite Km, Hp.
    + apply (Hall "ctime"). by rewrite Kc, Hp.
  - intros (Hta & Htm & Htc) s v Hv.
    destruct (Hs s) as [k ->]; [eauto|]. rewrite Hk in Hv.
    destruct k; cbn [shown] in Hv.
    + destruct (HasAtime a); [|discriminate]. injection Hv as <-. apply Ht. auto.
    + destruct (HasMtime a); [|discriminate]. injection Hv as <-. apply Ht. auto.
    + destruct (HasCtime a); [|discriminate]. injection Hv as <-. apply Ht. auto.
    + destruct (HasMode a); [|discriminate]. injection Hv as <-. by eexists.
    + destruct (HasSize a); [|discriminate]. injection Hv as <-. by eexists.
    + discriminate.
Qed.

(** X5. [MarshalJSON] returns a document exactly when every present
    time lies in the years 0 to 9999 and the meta object can be written;
    without a stored meta object, exactly when every present time lies
    in those years.  Mode and size never make it fail. *)
Theorem MarshalJSON_succeeds (a b : EntryAttributes) :
  ((exists data, MarshalJSON a = Ok data) <->
   (HasAtime a = true -> year_in_range (Atime a) = true) /\
   (HasMtime a = true -> year_in_range (Mtime a) = true) /\
   (HasCtime a = true -> year_in_range (Ctime a) = true) /\
   (exists j, json.Marshal (VMap (Meta a)) = Ok j)) /\
  (meta b = None ->
   ((exists data, MarshalJSON b = Ok data) <->
    (HasAtime b = true -> year_in_range (Atime b) = true) /\
    (HasMtime b = true -> year_in_range (Mtime b) = true) /\
    (HasCtime b = true -> year_in_range (Ctime b) = true))).
Proof.
  assert (forall a,
    (exists data, MarshalJSON a = Ok data) <->
    (HasAtime a = true -> year_in_range (Atime a) = true) /\
    (HasMtime a = true -> year_in_range (Mtime a) = true) /\
    (HasCtime a = true -> year_in_range (Ctime a) = true) /\
    (exists j, json.Marshal (VMap (Meta a)) = Ok j)) as Hgen.
  { clear. intros a. rewrite MarshalJSON_unfold.
    destruct (encoded_entries a) as [Hk Hs]. cbv zeta in Hk, Hs.
    set (m := if HasMode a then _ else _) in *.
    pose proof (Hk Aatime) as Ka. pose proof (Hk Amtime) as Km.
    pose proof (Hk Actime) as Kc. pose proof (Hk Ameta) as Kmeta.
    cbn [key sent shown] in Ka, Km, Kc, Kmeta.
    assert ((exists data, json.Valid <$> json.Marshal (VMap (Some m)) = Ok data) <->
            (exists j, json.Marshal (VMap (Some m)) = Ok j)) as ->.
    { destruct (json.Marshal (VMap (Some m))) as [j0|e0]; simpl; split; intros [y Hy];
        try discriminate; eauto. }
    rewrite Marshal_map_Ok.
    assert (forall t, (exists j, json.Marshal (VTime t) = Ok j) <-> year_in_range t = true)
      as Ht.
    { intros t. rewrite <- time_MarshalJSON_Some. split.
      - intros [j Hj]. apply Marshal_time in Hj as (s & -> & _). eauto.
      - intros [s Es]. exists (json.Str s). apply Marshal_time. eauto. }
    split.
    - intros Hall. repeat split; try (intros Hp; apply Ht).
      + apply (Hall "atime"). by rewrite Ka, Hp.
      + apply (Hall "mtime"). by rewrite Km, Hp.
      + apply (Hall "ctime"). by rewrite Kc, Hp.
      + by apply (Hall "meta").
    - intros (Hta & Htm & Htc & Hmeta) s v Hv.
      destruct (Hs s) as [k ->]; [eauto|]. rewrite Hk in Hv.
      destruct k; cbn [sent shown] in Hv.
      + destruct (HasAtime a); [|discriminate]. injection Hv as <-. apply Ht. auto.
      + destruct (HasMtime a); [|discriminate]. injection Hv as <-. apply Ht. auto.
      + destruct (HasCtime a); [|discriminate]. injection Hv as <-. apply Ht. auto.
      + destruct (HasMode a); [|discriminate]. injection Hv as <-. by eexists.
      + destruct (HasSize a); [|discriminate]. injection Hv as <-. by eexists.
      + by injection Hv as <-. }
  split; [apply Hgen|].
  intros Hb. rewrite Hgen, (Meta_unset b Hb), Marshal_map_Ok, projection_written.
  tauto.
Qed.

Lemma MarshalJSON_succeeds_witness :
  (exists data, MarshalJSON (SetAtime (time.Unix 253402300800 0) empty) = Ok data) <->
  (HasAtime (SetAtime (time.Unix 253402300800 0) empty) = true ->
   year_in_range (Atime (SetAtime (time.Unix 253402300800 0) empty)) = true) /\
  (HasMtime (SetAtime (time.Unix 253402300800 0) empty) = true ->
   year_in_range (Mtime (SetAtime (time.Unix 253402300800 0) empty)) = true) /\
  (HasCtime (SetAtime (time.Unix 253402300800 0) empty) = true ->
   year_in_range (Ctime (SetAtime (time.Unix 253402300800 0) empty)) = true).
Proof.
  apply (MarshalJSON_succeeds empty (SetAtime (time.Unix 253402300800 0) empty)).
  reflexivity.
Defined.

(** ** Decoding *)

(** What a run without an error has done, key by key. *)
Lemma decoded_all
    {svc : Munge} {arch : Arch}
    (data : json.bytes) (mp : JSONObject) (a a' : EntryAttributes) :
  json.Unmarshal data (Some ∅) = Ok mp ->
  UnmarshalJSON data a = Returns (a', None) ->
  forall k, decoded_attr mp k a a'.
Proof.
  intros Hu Hrun k. unfold UnmarshalJSON in Hrun. rewrite Hu in Hrun.
  cut_run Hrun; read_stretches.
  all: destruct k; unfold decoded_attr; cbn [key];
    repeat match goal with
           | Hi : index _ _ = _ |- _ => rewrite Hi; clear Hi
           end; simpl; eauto.
Qed.

(** X6. A call of [UnmarshalJSON] that returns no error has set every
    attribute whose key the document holds to the converted value of the
    key (the mode from the number, with [HasMode()] true; the size with
    [HasSize()] true; the meta object as the stored object) and has left
    every other attribute as it was. *)
Theorem successful_decoding_sets
    {svc : Munge} {arch : Arch}
    (data : json.bytes) (mp : JSONObject) (a a' : EntryAttributes) :
  json.Unmarshal data (Some ∅) = Ok mp ->
  UnmarshalJSON data a = Returns (a', None) ->
  forall k, decoded_attr mp k a a'.
Proof. apply decoded_all. Qed.

Lemma successful_decoding_sets_witness :
  @decoded_attr munge.service amd64
    (Some (<["mode" := VFloat64 (S754_finite false 8672947719897088 (-44))]>
             (<["size" := VString "42"]> ∅)))
    Asize (SetAtime (time.Unix 9 0) empty)
    (SetSize 42 (SetMode 493 (SetAtime (time.Unix 9 0) empty))) /\
  @decoded_attr munge.service amd64
    (Some (<["mode" := VFloat64 (S754_finite false 8672947719897088 (-44))]>
             (<["size" := VString "42"]> ∅)))
    Aatime (SetAtime (time.Unix 9 0) empty)
    (SetSize 42 (SetMode 493 (SetAtime (time.Unix 9 0) empty))).
Proof.
  split;
    apply (@successful_decoding_sets munge.service amd64
             (json.Valid (json.Object
                [("size", json.Str "42"); ("mode", json.Number (json.int 493))])));
    vm_compute; reflexivity.
Defined.

(** X7. Decoding succeeds exactly on the accepted payloads whose
    recognised keys all hold acceptable values: [UnmarshalJSON] returns
    no error if and only if every key of an attribute is absent or holds
    a value that converts (a time, a size), a number (the mode) or an
    object (the meta). *)
Theorem decoding_succeeds_iff
    {svc : Munge} {arch : Arch}
    (data : json.bytes) (mp : JSONObject) (a : EntryAttributes) :
  json.Unmarshal data (Some ∅) = Ok mp ->
  ((exists a', UnmarshalJSON data a = Returns (a', None)) <->
   forall k, key_ok mp k = true).
Proof.
  intros Hu. split.
  - intros [a' Hrun] k. unfold UnmarshalJSON in Hrun. rewrite Hu in Hrun.
    cut_run Hrun; read_stretches.
    all: destruct k; unfold key_ok; cbn [key];
      repeat match goal with
             | Hi : index _ _ = _ |- _ => rewrite Hi; clear Hi
             | Hi : ToTime _ = _ |- _ => rewrite Hi; clear Hi
             | Hi : ToSize _ = _ |- _ => rewrite Hi; clear Hi
             end; reflexivity.
  - intros Hok. destruct (UnmarshalJSON_returns data a) as (a' & e & Hrun).
    destruct e as [err|]; [exfalso|eauto].
    pose proof (Hok Aatime) as Ka. pose proof (Hok Amtime) as Km.
    pose proof (Hok Actime) as Kc. pose proof (Hok Amode) as Kmode.
    pose proof (Hok Asize) as Ksize. pose proof (Hok Ameta) as Kmeta.
    unfold key_ok in Ka, Km, Kc, Kmode, Ksize, Kmeta.
    cbn [key] in Ka, Km, Kc, Kmode, Ksize, Kmeta.
    unfold UnmarshalJSON in Hrun. rewrite Hu in Hrun.
    cut_run Hrun; read_stretches.
    all: repeat match goal with
                | Hc : context [index ?m ?k], Hi : index ?m ?k = _ |- _ =>
                    rewrite Hi in Hc
                | Hc : context [ToTime ?v], Hi : ToTime ?v = _ |- _ =>
                    rewrite Hi in Hc
                | Hc : context [ToSize ?v], Hi : ToSize ?v = _ |- _ =>
                    rewrite Hi in Hc
                end; try discriminate.
    all: match goal with
         | Hne : forall x, ?v <> _ |- _ => destruct v; try discriminate; by destruct (Hne _ eq_refl)
         end.
Qed.

Lemma decoding_succeeds_iff_witness :
  (exists a',
     @UnmarshalJSON munge.service amd64
       (json.Valid (json.Object [("size", json.Str "many")])) empty = Returns (a', None)) <->
  forall k, @key_ok munge.service (Some (<["size" := VString "many"]> ∅)) k = true.
Proof.
  apply (@decoding_succeeds_iff munge.service amd64
           (json.Valid (json.Object [("size", json.Str "many")]))).
  vm_compute. reflexivity.
Defined.

(** Rewrites with what is known of the decoded document and of the
    conversions. *)
Ltac use_known :=
  repeat match goal with
         | Hi : index _ _ = _ |- _ => rewrite Hi; clear Hi
         | Hi : ToTime _ = _ |- _ => rewrite Hi; clear Hi
         | Hi : ToSize _ = _ |- _ => rewrite Hi; clear Hi
         end.

(** X8. When [UnmarshalJSON] returns an error for an accepted payload,
    the error is that of the first key, in the order atime, mtime, ctime,
    mode, size, meta, whose value is not acceptable: the keys before it
    are acceptable and their attributes have been set from them, and the
    error names that key (for the meta it is the meta-shape error). *)
Theorem first_failing_key
    {svc : Munge} {arch : Arch}
    (data : json.bytes) (mp : JSONObject) (a a' : EntryAttributes) (err : error) :
  json.Unmarshal data (Some ∅) = Ok mp ->
  UnmarshalJSON data a = Returns (a', Some err) ->
  exists k,
    key_ok mp k = false /\
    (if attr_eq k Ameta then err = errMetaShape else names err (key k)) /\
    (forall k', (position k' < position k)%nat ->
                key_ok mp k' = true /\ decoded_attr mp k' a a').
Proof.
  intros Hu Hrun. unfold UnmarshalJSON in Hrun. rewrite Hu in Hrun.
  cut_run Hrun; read_stretches.
  all: match goal with
       | |- context [attrMungeError "atime" _] => exists Aatime
       | |- context [attrMungeError "mtime" _] => exists Amtime
       | |- context [attrMungeError "ctime" _] => exists Actime
       | |- context [attrMungeError "mode" _] => exists Amode
       | |- context [attrMungeError "size" _] => exists Asize
       | |- _ => exists Ameta
       end.
  all: try match goal with
           | Hne : forall x, ?v <> _ |- _ =>
               destruct v; try (by destruct (Hne _ eq_refl))
           end.
  all: split; [unfold key_ok; cbn [key]; use_known; reflexivity|].
  all: split; [first [reflexivity | eexists; reflexivity]|].
  all: intros k' Hlt; destruct k'; simpl in Hlt; try lia.
  all: split; [unfold key_ok | unfold decoded_attr]; cbn [key]; use_known;
    simpl; eauto.
Qed.

Lemma first_failing_key_witness :
  exists k,
    @key_ok munge.service
      (Some (<["mode" := VString "x"]>
               (<["atime" := VFloat64 (S754_finite false 5629499534213120 (-50))]> ∅))) k
    = false /\
    (if attr_eq k Ameta
     then attrMungeError "mode"
            (Errorf "mode was unexpected type %T: %v"
               [ArgValue (VString "x"); ArgValue (VString "x")]) = errMetaShape
     else names (attrMungeError "mode"
                   (Errorf "mode was unexpected type %T: %v"
                      [ArgValue (VString "x"); ArgValue (VString "x")])) (key k)) /\
    (forall k', (position k' < position k)%nat ->
       @key_ok munge.service
         (Some (<["mode" := VString "x"]>
                  (<["atime" := VFloat64 (S754_finite false 5629499534213120 (-50))]> ∅))) k'
       = true /\
       @decoded_attr munge.service amd64
         (Some (<["mode" := VString "x"]>
                  (<["atime" := VFloat64 (S754_finite false 5629499534213120 (-50))]> ∅)))
         k' empty (SetAtime (time.Unix 5 0) empty)).
Proof.
  apply (@first_failing_key munge.service amd64
           (json.Valid (json.Object
              [("atime", json.Number (json.int 5)); ("mode", json.Str "x")])));
    vm_compute; reflexivity.
Defined.

(** X9. Decoding is idempotent: when [UnmarshalJSON] returns no error,
    decoding the same document again into the record it left returns no
    error and leaves the same record. *)
Theorem decoding_twice
    {svc : Munge} {arch : Arch}
    (data : json.bytes) (a a' : EntryAttributes) :
  UnmarshalJSON data a = Returns (a', None) ->
  UnmarshalJSON data a' = Returns (a', None).
Proof.
  intros Hrun.
  destruct (json.Unmarshal data (Some ∅)) as [mp|e0] eqn:Hu;
    [|unfold UnmarshalJSON in Hrun; rewrite Hu in Hrun; discriminate].
  pose proof (decoded_all data mp a a' Hu Hrun) as Hd. clear Hrun.
  pose proof (Hd Aatime) as Ka. pose proof (Hd Amtime) as Km.
  pose proof (Hd Actime) as Kc. pose proof (Hd Amode) as Kmode.
  pose proof (Hd Asize) as Ksize. pose proof (Hd Ameta) as Kmeta. clear Hd.
  unfold decoded_attr in Ka, Km, Kc, Kmode, Ksize, Kmeta.
  cbn [key] in Ka, Km, Kc, Kmode, Ksize, Kmeta.
  unfold UnmarshalJSON. rewrite Hu. clear Hu. unfold seq.
  destruct a' as [ta tm tc md hm sz hs mt]. simpl in *.
  destruct (index mp "atime"); [rewrite Ka|]; simpl.
  all: destruct (index mp "mtime"); [rewrite Km|]; simpl.
  all: destruct (index mp "ctime"); [rewrite Kc|]; simpl.
  all: destruct (index mp "mode");
    [destruct Kmode as (raw & -> & -> & ->)|]; simpl.
  all: destruct (index mp "size"); [destruct Ksize as [-> ->]|]; simpl.
  all: destruct (index mp "meta"); [destruct Kmeta as (m & -> & ->)|]; reflexivity.
Qed.

Lemma decoding_twice_witness :
  @UnmarshalJSON munge.service amd64
    (json.Valid (json.Object
       [("size", json.Number (json.int 42)); ("meta", json.Object [("a", json.Null)])]))
    (with_meta (Some {["a" := VNil]}) (SetSize 42 (SetMode 420 empty)))
  = Returns (with_meta (Some {["a" := VNil]}) (SetSize 42 (SetMode 420 empty)), None).
Proof.
  apply (@decoding_twice munge.service amd64
           (json.Valid (json.Object
              [("size", json.Number (json.int 42)); ("meta", json.Object [("a", json.Null)])]))
           (SetMode 420 empty)).
  vm_compute. reflexivity.
Defined.

Section members.

Lemma index_Some (m : gmap string value) (k : string) : index (Some m) k = m !! k.
Proof. reflexivity. Qed.

Lemma Unmarshal_members (ms : list (string * json.text)) :
  json.Unmarshal (json.Valid (json.Object ms)) (Some ∅) =
  match json.decode_members ms ∅ with
  | Some m => Ok (Some m)
  | None => Err (Errorf "json: cannot unmarshal number into Go value of type float64" [])
  end.
Proof. reflexivity. Qed.

(** Two runs of the member loop from maps that agree off one key end in
    maps that agree off that key, or fail alike. *)
Lemma decode_members_agree (k : string) (ms : list (string * json.text))
    (acc1 acc2 : gmap string value) :
  (forall k', k' <> k -> acc1 !! k' = acc2 !! k') ->
  match json.decode_members ms acc1, json.decode_members ms acc2 with
  | Some m1, Some m2 => forall k', k' <> k -> m1 !! k' = m2 !! k'
  | None, None => True
  | _, _ => False
  end.
Proof.
  revert acc1 acc2. induction ms as [|[k0 x] ms IH]; intros acc1 acc2 Hag; simpl.
  - exact Hag.
  - destruct (json.decode x) as [v|]; simpl; [|done].
    apply IH. intros k' Hk'. rewrite !lookup_insert. case_decide; [done|by apply Hag].
Qed.

(** A member put into an object decides its own key only. *)
Lemma decode_members_extra (k : string) (j : json.text)
    (ms1 ms2 : list (string * json.text)) (acc : gmap string value) :
  fits j = true ->
  match json.decode_members (ms1 ++ (k, j) :: ms2) acc,
        json.decode_members (ms1 ++ ms2) acc with
  | Some m1, Some m2 => forall k', k' <> k -> m1 !! k' = m2 !! k'
  | None, None => True
  | _, _ => False
  end.
Proof.
  intros Hj. apply decode_is_Some in Hj as [v Hv].
  revert acc. induction ms1 as [|[k0 x] ms1 IH]; intros acc; simpl.
  - rewrite Hv. simpl. apply decode_members_agree.
    intros k' Hk'. by rewrite lookup_insert_ne.
  - destruct (json.decode x) as [v0|]; simpl; [apply IH|done].
Qed.

End members.

(** X10. A member with an unrecognised name is ignored: putting one,
    whose value the decoder can read, anywhere into an object changes
    neither the record that [UnmarshalJSON] leaves nor the error it
    returns. *)
Theorem unknown_member_ignored
    {svc : Munge} {arch : Arch}
    (k : string) (j : json.text) (ms1 ms2 : list (string * json.text))
    (a : EntryAttributes) :
  (forall k', k <> key k') ->
  fits j = true ->
  UnmarshalJSON (json.Valid (json.Object (ms1 ++ (k, j) :: ms2))) a
  = UnmarshalJSON (json.Valid (json.Object (ms1 ++ ms2))) a.
Proof.
  intros Hk Hj. unfold UnmarshalJSON. rewrite !Unmarshal_members.
  pose proof (decode_members_extra k j ms1 ms2 ∅ Hj) as Hag.
  destruct (json.decode_members (ms1 ++ (k, j) :: ms2) ∅) as [m1|],
    (json.decode_members (ms1 ++ ms2) ∅) as [m2|]; try done.
  rewrite !index_Some.
  rewrite (Hag "atime"), (Hag "mtime"), (Hag "ctime"), (Hag "mode"),
    (Hag "size"), (Hag "meta"); [reflexivity|..].
  - intros <-. by apply (Hk Ameta).
  - intros <-. by apply (Hk Asize).
  - intros <-. by apply (Hk Amode).
  - intros <-. by apply (Hk Actime).
  - intros <-. by apply (Hk Amtime).
  - intros <-. by apply (Hk Aatime).
Qed.

Lemma unknown_member_ignored_witness :
  @UnmarshalJSON munge.service amd64
    (json.Valid (json.Object
       ([("size", json.Number (json.int 1))]
        ++ ("owner", json.Str "root") :: [("mode", json.Number (json.int 420))])))
    empty
  = @UnmarshalJSON munge.service amd64
      (json.Valid (json.Object
         ([("size", json.Number (json.int 1))] ++ [("mode", json.Number (json.int 420))])))
      empty.
Proof.
  apply (@unknown_member_ignored munge.service amd64 "owner" (json.Str "root")).
  - intros k'. destruct k'; discriminate.
  - reflexivity.
Defined.

(** X11. A mode survives the [float64] that the decoder reads it as:
    for every 32-bit mode, the number written for it is read back as a
    [float64] that converts to the same mode, on every target; so
    decoding [{"mode": m}] sets the mode [m]. *)
Theorem mode_number_exact
    {svc : Munge} {arch : Arch} (m : Z) (a : EntryAttributes) :
  0 <= m < 2 ^ 32 ->
  (exists f, json.decode (json.Number (json.int m)) = Some (VFloat64 f) /\
             FileMode_of_float64 f = m) /\
  UnmarshalJSON (json.Valid (json.Object [("mode", json.Number (json.int m))])) a
  = Returns (SetMode m a, None).
Proof.
  intros Hm. destruct (of_Z_exact m) as (f & Hf & Ht); [lia|].
  assert (FileMode_of_float64 f = m) as Hmode by by apply FileMode_of_float64_exact.
  assert (json.decode (json.Number (json.int m)) = Some (VFloat64 f)) as Hd.
  { simpl. by rewrite ParseFloat_int, Hf. }
  split; [eauto|].
  unfold UnmarshalJSON. rewrite Unmarshal_members. cbn [json.decode_members].
  rewrite Hd. cbn [mbind option_bind]. rewrite !index_Some.
  rewrite !lookup_insert_ne by done. rewrite lookup_insert_eq, !lookup_empty.
  unfold seq, skip, call. by rewrite Hmode.
Qed.

Lemma mode_number_exact_witness :
  (exists f, json.decode (json.Number (json.int 4294967295)) = Some (VFloat64 f) /\
             @FileMode_of_float64 amd64 f = 4294967295) /\
  @UnmarshalJSON munge.service amd64
    (json.Valid (json.Object [("mode", json.Number (json.int 4294967295))])) empty
  = Returns (SetMode 4294967295 empty, None).
Proof.
  apply (@mode_number_exact munge.service amd64 4294967295 empty). lia.
Defined.

(** X12. [UnmarshalJSON] never panics, on any payload and with any
    coercion service, although it stores the meta object through
    [SetMeta], which panics on other arguments: the decoded meta value
    is handed over as a [JSONObject]. *)
Theorem UnmarshalJSON_never_panics
    {svc : Munge} {arch : Arch} (data : json.bytes) (a : EntryAttributes) :
  UnmarshalJSON data a <> Panics /\
  (exists obj, SetMeta obj a = Panics).
Proof.
  split.
  - destruct (UnmarshalJSON_returns data a) as (a' & e & ->). discriminate.
  - exists (OfValue (VBool true)). reflexivity.
Qed.

(** ** The stored meta object *)

Section kinds.

Lemma json_kind_map (m : gmap string value) :
  json_kind (VMap (Some m)) = true <-> map_Forall (fun _ x => json_kind x = true) m.
Proof.
  simpl. rewrite map_fold_foldr, map_Forall_to_list.
  induction (map_to_list m) as [|[k x] l IH]; simpl.
  - split; [constructor|done].
  - rewrite andb_true_iff, IH, Forall_cons. done.
Qed.

(** Induction on a text, with the property at hand for the elements of
    an array and for the members of an object. *)
Lemma text_ind_nested (P : json.text -> Prop) :
  P json.Null ->
  (forall b, P (json.Bool b)) ->
  (forall n, P (json.Number n)) ->
  (forall s, P (json.Str s)) ->
  (forall l, Forall P l -> P (json.Array l)) ->
  (forall ms, Forall (fun kv => P kv.2) ms -> P (json.Object ms)) ->
  forall j, P j.
Proof.
  intros Hnull Hbool Hnum Hstr Harr Hobj. fix IH 1. intros [|b|n|s|l|ms].
  - exact Hnull.
  - apply Hbool.
  - apply Hnum.
  - apply Hstr.
  - apply Harr. induction l as [|x l IHl]; constructor; [apply IH|exact IHl].
  - apply Hobj. induction ms as [|[k x] ms IHms]; constructor; [apply IH|exact IHms].
Qed.

Lemma decode_members_kind (ms : list (string * json.text)) (acc m : gmap string value) :
  Forall (fun kv => forall v, json.decode kv.2 = Some v -> json_kind v = true) ms ->
  map_Forall (fun _ x => json_kind x = true) acc ->
  json.decode_members ms acc = Some m ->
  map_Forall (fun _ x => json_kind x = true) m.
Proof.
  intros Hms. revert acc. induction Hms as [|[k x] ms Hx _ IH]; intros acc Hacc; simpl.
  - by intros [= <-].
  - destruct (json.decode x) as [v0|] eqn:E0; simpl; [|done].
    apply IH. apply map_Forall_insert_2; [|done]. by apply Hx.
Qed.

(** Whatever the generic decoder reads is of a decoded kind. *)
Lemma decode_kind (j : json.text) (v : value) :
  json.decode j = Some v -> json_kind v = true.
Proof.
  revert v. induction j as [|b|n|s|l Hl|ms Hms] using text_ind_nested; intros v.
  - by intros [= <-].
  - by intros [= <-].
  - simpl. destruct (json.ParseFloat n); simpl; [by intros [= <-]|done].
  - by intros [= <-].
  - simpl. intros Hv. apply fmap_Some in Hv as (vs & Hvs & ->). simpl.
    revert vs Hvs. induction Hl as [|x l Hx _ IHl]; intros vs; simpl.
    + by intros [= <-].
    + destruct (json.decode x) as [v0|] eqn:E0; simpl; [|done].
      match goal with |- context [?t ≫= _] => destruct t as [vs0|] eqn:E1 end;
        simpl; [|done].
      intros [= <-]. simpl. rewrite (Hx v0 eq_refl). simpl. by apply IHl.
  - rewrite decode_object. intros Hv. apply fmap_Some in Hv as (m & Hm & ->).
    apply json_kind_map. apply (decode_members_kind ms ∅ m); [done| |done].
    apply map_Forall_empty.
Qed.

End kinds.

(** X13. What [ToJSONObject] makes of an argument that is not already
    a [JSONObject] holds values of decoded kinds only ([nil], [bool],
    [float64], [string], slices and maps of them): a time of the
    argument has become a string and an integer a [float64].  An
    argument that is a [JSONObject] is returned as it is, whatever it
    holds. *)
Theorem ToJSONObject_decoded_kinds (v : object) (m o : gmap string value) :
  (is_JSONObject v = false ->
   ToJSONObject v = Returns (Some m) ->
   map_Forall (fun _ x => json_kind x = true) m) /\
  ToJSONObject (OfValue (VMap (Some o))) = Returns (Some o).
Proof.
  split; [|reflexivity].
  intros Hv Hr.
  assert (exists data, json.Unmarshal data None = Ok (Some m)) as [data Hu].
  { unfold ToJSONObject in Hr. destruct v as [arr|v].
    - destruct (json.Unmarshal arr None) as [obj|] eqn:E; [|discriminate].
      injection Hr as ->. eauto.
    - destruct v; try discriminate Hv;
        (destruct (json.Marshal _) as [j|]; [|discriminate]);
        (destruct (json.Unmarshal (json.Valid j) None) as [obj|] eqn:E; [|discriminate]);
        injection Hr as ->; eauto. }
  destruct data as [|[|b|n|s|l|ms]]; simpl in Hu; try discriminate.
  destruct (json.decode_members ms ∅) as [m'|] eqn:Em; [|discriminate].
  injection Hu as ->. apply json_kind_map.
  apply (decode_kind (json.Object ms)). rewrite decode_object, Em. done.
Qed.

Lemma ToJSONObject_decoded_kinds_witness :
  map_Forall (fun _ x => json_kind x = true)
    (<["Created" := VString "1970-01-01T00:00:09Z"]>
       (<["Pid" := VFloat64 (S754_finite false 7881299347898368 (-50))]> ∅)
     : gmap string value) /\
  ToJSONObject (OfValue (VMap (Some {["Created" := VTime (time.Unix 9 0)]})))
  = Returns (Some {["Created" := VTime (time.Unix 9 0)]}).
Proof.
  destruct (ToJSONObject_decoded_kinds
              (OfValue (VStruct [("Pid", VUint64 7); ("Created", VTime (time.Unix 9 0))]))
              (<["Created" := VString "1970-01-01T00:00:09Z"]>
                 (<["Pid" := VFloat64 (S754_finite false 7881299347898368 (-50))]> ∅))
              {["Created" := VTime (time.Unix 9 0)]}) as [H1 H2].
  split; [apply H1|exact H2].
  - reflexivity.
  - vm_compute. reflexivity.
Defined.

Section stored.

(** The member loop on an object that names no key twice: every member
    lands under its name, and the other names keep what they had. *)
Lemma decode_members_lookup (l : list (string * json.text)) (acc mp : gmap string value) :
  NoDup l.*1 ->
  json.decode_members l acc = Some mp ->
  (forall k j, (k, j) ∈ l -> exists v, json.decode j = Some v /\ mp !! k = Some v) /\
  (forall k, k ∉ l.*1 -> mp !! k = acc !! k).
Proof.
  revert acc. induction l as [|[k0 j0] l IH]; intros acc Hnd Hmp; simpl in Hmp.
  - injection Hmp as <-. split; [|done]. intros k j Hin. by apply elem_of_nil in Hin.
  - apply NoDup_cons in Hnd as [Hk0 Hnd].
    destruct (json.decode j0) as [v0|] eqn:E0; [|discriminate]. simpl in Hmp.
    destruct (IH _ Hnd Hmp) as [Hin Hout]. split.
    + intros k j Hkj. apply elem_of_cons in Hkj as [[= -> ->]|Hkj]; [|by apply Hin].
      exists v0. split; [done|]. rewrite (Hout k0 Hk0). apply lookup_insert_eq.
    + intros k Hk. apply not_elem_of_cons in Hk as [Hne Hk].
      rewrite (Hout k Hk). by rewrite lookup_insert_ne.
Qed.

End stored.

(** X14. Decoding what [MarshalJSON] wrote for a record without a
    stored meta object stores one: the record read back holds, as its
    meta, the decoded form of the projection of the record written, each
    entry of [ToMap(false)] having gone through the codec (a time as its
    string, the size as a [float64]).  So when the size is present,
    [Meta()] of the record read back is not its [ToMap(false)]. *)
Theorem decoding_stores_meta
    {svc : Munge} {arch : Arch}
    (r a0 a' : EntryAttributes) (data : json.bytes) :
  meta r = None ->
  MarshalJSON r = Ok data ->
  UnmarshalJSON data a0 = Returns (a', None) ->
  exists m',
    meta a' = Some m' /\
    (forall s,
       match ToMap r false !! s with
       | Some v => exists v', m' !! s = Some v' /\ passes v v'
       | None => m' !! s = None
       end) /\
    (HasSize r = true -> Meta a' <> Some (ToMap a' false)).
Proof.
  intros Hmeta Hmar Hrun.
  destruct (MarshalJSON_members_all r data Hmar) as (l & -> & Hnd & Hl & jm & Hjm & Hmm).
  rewrite (Meta_unset r Hmeta) in Hmm.
  destruct (json.decode_members l ∅) as [mp|] eqn:Emp.
  2:{ unfold UnmarshalJSON in Hrun. rewrite Unmarshal_members, Emp in Hrun. discriminate. }
  assert (json.Unmarshal (json.Valid (json.Object l)) (Some ∅) = Ok (Some mp)) as Hu
    by (by rewrite Unmarshal_members, Emp).
  destruct (decode_members_lookup l ∅ mp Hnd Emp) as [Hin _].
  destruct (Hin "meta" jm Hjm) as (vm & Hvm & Hmp).
  pose proof (decoded_all _ _ _ _ Hu Hrun Ameta) as Hd.
  unfold decoded_attr in Hd. cbn [key] in Hd. rewrite index_Some, Hmp in Hd.
  destruct Hd as (o & -> & Ho).
  destruct (Marshal_map_members _ _ Hmm) as (l0 & -> & Hnd0 & Hl0).
  rewrite decode_object in Hvm.
  destruct (json.decode_members l0 ∅) as [m0|] eqn:Em0; [|discriminate].
  injection Hvm as <-.
  destruct (decode_members_lookup l0 ∅ m0 Hnd0 Em0) as [Hin0 Hout0].
  assert (forall s,
            match ToMap r false !! s with
            | Some v => exists v', m0 !! s = Some v' /\ passes v v'
            | None => m0 !! s = None
            end) as Hall.
  { intros s. destruct (ToMap r false !! s) as [v|] eqn:Es.
    - assert (exists j, json.Marshal v = Ok j) as [j Hj].
      { apply (proj1 (Marshal_map_Ok (ToMap r false))) with (i := s); eauto. }
      destruct (Hin0 s j) as (v' & Hv' & Hm0); [apply Hl0; eauto|].
      exists v'. split; [done|]. by exists j.
    - rewrite Hout0; [done|]. intros Hs.
      apply list_elem_of_fmap in Hs as ([s' j] & -> & Hsj).
      apply Hl0 in Hsj as (v & Hv & _). change ((s', j).1) with s' in Es. congruence. }
  exists m0. split; [done|]. split; [exact Hall|].
  intros Hsz Heq. rewrite (Meta_set _ _ Ho) in Heq. 
  assert (m0 = ToMap a' false) as Heq' by (by injection Heq). clear Heq.
  pose proof (Hall "size") as Hs.
  destruct (ToMap_lookup r false) as [Hr _]. pose proof (Hr Asize) as Hrs.
  cbn [key shown] in Hrs. rewrite Hrs, Hsz in Hs. destruct Hs as (v' & Hv' & j & Hj & Hdj).
  simpl in Hj. injection Hj as <-. simpl in Hdj.
  destruct (json.ParseFloat _) as [f|]; [|discriminate]. injection Hdj as <-.
  rewrite Heq' in Hv'. destruct (ToMap_lookup a' false) as [Ha' _].
  pose proof (Ha' Asize) as Has. cbn [key shown] in Has. rewrite Has in Hv'.
  destruct (HasSize a'); discriminate.
Qed.

Lemma decoding_stores_meta_witness :
  exists m',
    meta (with_meta
            (Some (<["mode" := VString "-rwxr-xr-x"]>
                     (<["size" := VFloat64 (S754_finite false 4503599627370496 (-40))]> ∅)))
            (SetSize 4096 (SetMode 493 empty))) = Some m' /\
    (forall s,
       match ToMap (SetSize 4096 (SetMode 493 empty)) false !! s with
       | Some v => exists v', m' !! s = Some v' /\ passes v v'
       | None => m' !! s = None
       end) /\
    (HasSize (SetSize 4096 (SetMode 493 empty)) = true ->
     Meta (with_meta
             (Some (<["mode" := VString "-rwxr-xr-x"]>
                      (<["size" := VFloat64 (S754_finite false 4503599627370496 (-40))]> ∅)))
             (SetSize 4096 (SetMode 493 empty)))
     <> Some (ToMap
                (with_meta
                   (Some (<["mode" := VString "-rwxr-xr-x"]>
                            (<["size" := VFloat64 (S754_finite false 4503599627370496 (-40))]>
                               ∅)))
                   (SetSize 4096 (SetMode 493 empty))) false)).
Proof.
  apply (@decoding_stores_meta munge.service amd64
           (SetSize 4096 (SetMode 493 empty)) empty _
           (json.Valid (json.Object
              [("size", json.Number (json.int 4096)); ("mode", json.Number (json.int 493));
               ("meta", json.Object [("size", json.Number (json.int 4096));
                                     ("mode", json.Str "-rwxr-xr-x")])])));
    vm_compute; reflexivity.
Defined.

(** ** Decimal integers *)

Section decimal.

Lemma digit_val_char (d : Z) :
  0 <= d < 10 -> time.digit_val (time.digit_char d) = Some d.
Proof.
  intros Hd. unfold time.digit_val, time.digit_char.
  rewrite Z.mod_small by lia.
  assert (d = 0 \/ d = 1 \/ d = 2 \/ d = 3 \/ d = 4 \/ d = 5 \/ d = 6 \/ d = 7 \/
          d = 8 \/ d = 9) as Hc by lia.
  repeat (destruct Hc as [->|Hc]; [reflexivity|]). by subst.
Qed.

Lemma digit_val_char_mod (n : Z) :
  time.digit_val (time.digit_char n) = Some (n mod 10).
Proof.
  assert (time.digit_char n = time.digit_char (n mod 10)) as ->.
  { unfold time.digit_char. by rewrite Z.mod_mod. }
  apply digit_val_char. apply Z.mod_pos_bound. lia.
Qed.

(** Reading the digits written for [n] continues from [a * 10^k + n],
    for [k] the number of digits. *)
Lemma parse_digits_digits (fuel : nat) (n : Z) :
  0 <= n < 10 ^ Z.of_nat fuel ->
  exists k,
    0 <= k /\
    forall a acc, strconv.parse_digits a (strconv.digits fuel n acc)
                  = strconv.parse_digits (a * 10 ^ k + n) acc.
Proof.
  revert n. induction fuel as [|fuel IH]; intros n Hn.
  - exists 0. split; [lia|]. intros a acc. simpl. f_equal.
    change (10 ^ Z.of_nat 0) with 1 in Hn. lia.
  - cbn [strconv.digits]. destruct (Z.ltb_spec n 10) as [Hlt|Hge].
    + exists 1. split; [lia|]. intros a acc. cbn [strconv.parse_digits].
      rewrite digit_val_char_mod, Z.mod_small by lia. f_equal. lia.
    + destruct (IH (n / 10)) as (k & Hk & Hread).
      { split; [apply Z.div_pos; lia|].
        apply Z.div_lt_upper_bound; [lia|].
        rewrite Nat2Z.inj_succ, Z.pow_succ_r in Hn by lia. lia. }
      exists (k + 1). split; [lia|]. intros a acc. rewrite Hread.
      cbn [strconv.parse_digits]. rewrite digit_val_char_mod. f_equal.
      rewrite Z.pow_add_r by lia. change (10 ^ 1) with 10.
      pose proof (Z.div_mod n 10). lia.
Qed.

(** The digits written by a positive fuel start with a digit. *)
Lemma digits_head (fuel : nat) (n : Z) (acc : string) :
  exists d rest, 0 <= d < 10 /\
    strconv.digits (S fuel) n acc = String (time.digit_char d) rest.
Proof.
  revert n acc. induction fuel as [|fuel IH]; intros n acc.
  - exists (n mod 10), acc. split; [apply Z.mod_pos_bound; lia|].
    cbn [strconv.digits]. assert (time.digit_char n = time.digit_char (n mod 10)) as ->.
    { unfold time.digit_char. by rewrite Z.mod_mod. }
    by destruct (n <? 10).
  - cbn [strconv.digits]. destruct (n <? 10).
    + exists (n mod 10), acc. split; [apply Z.mod_pos_bound; lia|].
      assert (time.digit_char n = time.digit_char (n mod 10)) as ->; [|done].
      unfold time.digit_char. by rewrite Z.mod_mod.
    + apply (IH (n / 10)).
Qed.

Lemma fuel_suffices (n : Z) :
  0 <= n -> n < 10 ^ Z.of_nat (S (Z.to_nat (Z.log2 n))).
Proof.
  intros Hn. rewrite Nat2Z.inj_succ, Z2Nat.id by apply Z.log2_nonneg.
  destruct (Z.eq_dec n 0) as [->|Hn0]; [reflexivity|].
  destruct (Z.log2_spec n) as [_ Hhi]; [lia|].
  eapply Z.lt_le_trans; [exact Hhi|].
  apply Z.pow_le_mono_l. pose proof (Z.log2_nonneg n). lia.
Qed.

Lemma Atoi_signed (body : string) (c : ascii) (rest : string) (v : Z) :
  body = String c rest ->
  strconv.parse_digits 0 body = Some v ->
  strconv.Atoi (String "-" body) =
  if (- v <? - 2 ^ 63) || (2 ^ 63 <=? - v)
  then Err (strconv.errRange (String "-" body)) else Ok (- v).
Proof.
  intros Hb Hv. unfold strconv.Atoi. cbv iota beta.
  rewrite Hv. by rewrite Hb.
Qed.

Lemma Atoi_unsigned (d : Z) (rest : string) (v : Z) :
  0 <= d < 10 ->
  strconv.parse_digits 0 (String (time.digit_char d) rest) = Some v ->
  strconv.Atoi (String (time.digit_char d) rest) =
  if (v <? - 2 ^ 63) || (2 ^ 63 <=? v)
  then Err (strconv.errRange (String (time.digit_char d) rest)) else Ok v.
Proof.
  intros Hd Hv.
  assert (d = 0 \/ d = 1 \/ d = 2 \/ d = 3 \/ d = 4 \/ d = 5 \/ d = 6 \/ d = 7 \/
          d = 8 \/ d = 9) as Hc by lia.
  repeat (destruct Hc as [->|Hc]); try subst d;
    change (time.digit_char 0) with "0"%char in *;
    change (time.digit_char 1) with "1"%char in *;
    change (time.digit_char 2) with "2"%char in *;
    change (time.digit_char 3) with "3"%char in *;
    change (time.digit_char 4) with "4"%char in *;
    change (time.digit_char 5) with "5"%char in *;
    change (time.digit_char 6) with "6"%char in *;
    change (time.digit_char 7) with "7"%char in *;
    change (time.digit_char 8) with "8"%char in *;
    change (time.digit_char 9) with "9"%char in *;
    unfold strconv.Atoi; cbv iota beta; rewrite Hv; reflexivity.
Qed.

(** Reading back the decimal form of an [int] gives the [int]. *)
Lemma Atoi_Itoa (n : Z) :
  - 2 ^ 63 <= n < 2 ^ 63 -> strconv.Atoi (strconv.Itoa n) = Ok n.
Proof.
  intros Hn. unfold strconv.Itoa. destruct (Z.ltb_spec n 0) as [Hneg|Hpos].
  - set (fuel := Z.to_nat (Z.log2 (Z.abs n))).
    destruct (digits_head fuel (- n) EmptyString) as (d & rest & Hd & Hhead).
    destruct (parse_digits_digits (S fuel) (- n)) as (k & Hk & Hread).
    { unfold fuel. rewrite <- Z.abs_neq by lia. split; [lia|]. apply fuel_suffices. lia. }
    specialize (Hread 0 EmptyString). cbn [strconv.parse_digits] in Hread.
    rewrite Z.mul_0_l, Z.add_0_l in Hread.
    rewrite (Atoi_signed _ _ _ _ Hhead Hread), Z.opp_involutive.
    destruct (Z.ltb_spec n (- 2 ^ 63)); [lia|].
    destruct (Z.leb_spec (2 ^ 63) n); [lia|]. reflexivity.
  - set (fuel := Z.to_nat (Z.log2 (Z.abs n))).
    destruct (digits_head fuel n EmptyString) as (d & rest & Hd & Hhead).
    destruct (parse_digits_digits (S fuel) n) as (k & Hk & Hread).
    { unfold fuel. rewrite Z.abs_eq by lia. split; [lia|]. apply fuel_suffices. lia. }
    specialize (Hread 0 EmptyString). cbn [strconv.parse_digits] in Hread.
    rewrite Z.mul_0_l, Z.add_0_l in Hread. rewrite Hhead in Hread |- *.
    rewrite (Atoi_unsigned d rest n Hd Hread).
    destruct (Z.ltb_spec n (- 2 ^ 63)); [lia|].
    destruct (Z.leb_spec (2 ^ 63) n); [lia|]. reflexivity.
Qed.

End decimal.

(** ** The [history] command *)

Section history.
Context {client : cmd.Client}.

Lemma wrap_int_small (z : Z) : - 2 ^ 63 <= z < 2 ^ 63 -> strconv.wrap_int z = z.
Proof. intros Hz. unfold strconv.wrap_int. rewrite Z.mod_small; lia. Qed.

(** The rows printed from the counter [i] on. *)
Lemma print_rows_lookup (width : nat) (items : list cmd.Activity) (i : Z)
    (k : nat) (item : cmd.Activity) :
  0 <= i -> i + Z.of_nat (length items) < 2 ^ 63 ->
  items !! k = Some item ->
  cmd.print_rows width i items !! k =
  Some (cmd.Stdout (cmd.row width (i + Z.of_nat k + 1)
                      (cmd.Format_minute (cmd.Start item)) (cmd.Description item))).
Proof.
  revert i k. induction items as [|it items IH]; intros i k Hi Hlen Hk; [done|].
  simpl in Hlen. cbn [cmd.print_rows]. rewrite wrap_int_small by lia.
  destruct k as [|k]; simpl in Hk |- *.
  - injection Hk as ->. do 3 f_equal. lia.
  - rewrite (IH (i + 1) k) by (done || lia). do 3 f_equal. lia.
Qed.

Lemma print_rows_length (width : nat) (items : list cmd.Activity) (i : Z) :
  length (cmd.print_rows width i items) = length items.
Proof. revert i. induction items as [|it items IH]; intros i; simpl; [done|]. by rewrite IH. Qed.

Lemma spaces_length (n : nat) (s : string) :
  String.length (cmd.spaces n s) = (n + String.length s)%nat.
Proof. induction n as [|n IH]; simpl; [done|]. by rewrite IH. Qed.

Lemma fmt_d_length (width : nat) (n : Z) :
  String.length (cmd.fmt_d width n) = Nat.max width (String.length (strconv.Itoa n)).
Proof. unfold cmd.fmt_d. rewrite spaces_length. lia. Qed.

Lemma print_rows_Stdout (width : nat) (items : list cmd.Activity) (i : Z) :
  Forall (fun ev => exists s, ev = cmd.Stdout s) (cmd.print_rows width i items).
Proof.
  revert i. induction items as [|it items IH]; intros i; simpl; constructor; eauto.
Qed.

(** What a printer does before it returns: it never writes to the
    standard error, and only [printHistory] asks for the history. *)
Lemma printJournalEntry_events (index : string) (follow : bool) :
  Forall (fun ev => (forall f err, ev <> cmd.ErrPrintf f err) /\
                    (forall fl, ev <> cmd.AskHistory fl))
         (cmd.printJournalEntry index follow).1.
Proof.
  unfold cmd.printJournalEntry, cmd.close_and_log.
  destruct (strconv.Atoi index) as [idx|err]; [|constructor].
  destruct (cmd.ActivityJournal _ follow) as [rdr|err]; simpl;
    [destruct (cmd.close_error rdr)|]; repeat constructor; discriminate.
Qed.

Lemma printHistory_events (follow : bool) :
  Forall (fun ev => (forall f err, ev <> cmd.ErrPrintf f err) /\
                    (forall idx fl, ev <> cmd.AskJournal idx fl))
         (cmd.printHistory follow).1.
Proof.
  unfold cmd.printHistory.
  destruct (cmd.History follow) as [h|err]; simpl; constructor;
    try (split; discriminate); [|constructor].
  eapply Forall_impl; [apply print_rows_Stdout|].
  intros ev [s ->]; split; discriminate.
Qed.

End history.

(** X15. The identifier of [history <id>] counts from one: for every
    [int] [n] above the least one, given in decimal, the journal asked
    of the daemon is that of index [n - 1], asked once; an error of the
    daemon is returned as it is; otherwise what the reader gives is
    copied to the standard output, the reader is then closed, an error
    of closing is logged and not returned, and the error returned is
    that of reading. *)
Theorem journal_counts_from_one
    {client : cmd.Client} (n : Z) (follow : bool) :
  - 2 ^ 63 < n < 2 ^ 63 ->
  cmd.printJournalEntry (strconv.Itoa n) follow =
  match cmd.ActivityJournal (n - 1) follow with
  | Err err => ([cmd.AskJournal (n - 1) follow], Some err)
  | Ok rdr =>
      (cmd.AskJournal (n - 1) follow :: cmd.Stdout (cmd.content rdr)
         :: cmd.Close
         :: match cmd.close_error rdr with Some e => [cmd.Log e] | None => [] end,
       cmd.read_error rdr)
  end.
Proof.
  intros Hn. unfold cmd.printJournalEntry. rewrite Atoi_Itoa by lia.
  rewrite wrap_int_small by lia. reflexivity.
Qed.

Lemma journal_counts_from_one_witness :
  cmd.printJournalEntry (client := two_commands) "1" false =
  ([cmd.AskJournal 0 false; cmd.Stdout "ls /aws"; cmd.Close;
    cmd.Log (Errorf "already closed" [])], None).
Proof.
  apply (journal_counts_from_one (client := two_commands) 1 false). lia.
Defined.


(** X16. [historyMain] returns the exit code 0 or 1: 1 when it has
    written an error to the standard error, which it then does last and
    once, and 0 when it has written none.  With arguments it never asks
    for the history, and without arguments never for a journal.  When
    the first argument is not a decimal [int], it asks the daemon
    nothing, writes only the error of [strconv.Atoi] and returns 1. *)
Theorem historyMain_exit_code
    {client : cmd.Client} (follow : bool) (args : list string) :
  exists events code,
    cmd.historyMain (Ok follow) args = Returns (events, code) /\
    (code = 0 \/ code = 1) /\
    (code = 1 ->
     exists pre err, events = pre ++ [cmd.ErrPrintf cmd.errFormat err] /\
       Forall (fun ev => forall f err', ev <> cmd.ErrPrintf f err') pre) /\
    (code = 0 -> Forall (fun ev => forall f err, ev <> cmd.ErrPrintf f err) events) /\
    (args <> [] -> forall fl, cmd.AskHistory fl ∉ events) /\
    (args = [] -> forall idx fl, cmd.AskJournal idx fl ∉ events) /\
    (forall arg rest e,
       args = arg :: rest -> strconv.Atoi arg = Err e ->
       events = [cmd.ErrPrintf cmd.errFormat e] /\ code = 1).
Proof.
  unfold cmd.historyMain.
  destruct args as [|a0 args'].
  - pose proof (printHistory_events follow) as Hev.
    assert (forall fl' events' (err' : error),
              Forall (fun ev => (forall f err, ev <> cmd.ErrPrintf f err) /\
                                (forall idx fl, ev <> cmd.AskJournal idx fl)) events' ->
              forall idx, cmd.AskJournal idx fl' ∉ events' ++ [cmd.ErrPrintf cmd.errFormat err'])
      as Hno.
    { intros fl' events' err' Hall idx [Hin|Hin]%elem_of_app.
      - rewrite Forall_forall in Hall. destruct (Hall _ Hin) as [_ H2]. by apply (H2 idx fl').
      - apply list_elem_of_singleton in Hin. discriminate. }
    destruct (cmd.printHistory follow) as [events [err|]]; simpl in Hev.
    + eexists _, 1. split; [reflexivity|]. split; [by right|].
      split; [|split; [done|split; [done|split; [|done]]]].
      * intros _. exists events, err. split; [done|].
        eapply Forall_impl; [exact Hev|]. by intros ev [H1 _].
      * intros _ idx fl. by apply Hno.
    + eexists _, 0. split; [reflexivity|]. split; [by left|].
      split; [done|]. split; [|split; [done|split; [|done]]].
      * intros _. eapply Forall_impl; [exact Hev|]. by intros ev [H1 _].
      * intros _ idx fl Hin. rewrite Forall_forall in Hev.
        destruct (Hev _ Hin) as [_ H2]. by apply (H2 idx fl).
  - pose proof (printJournalEntry_events a0 follow) as Hev.
    assert (forall arg rest e,
              a0 :: args' = arg :: rest -> strconv.Atoi arg = Err e ->
              cmd.printJournalEntry a0 follow = ([], Some e)) as Hbad.
    { intros arg rest e [= <- _] Ha. unfold cmd.printJournalEntry. by rewrite Ha. }
    destruct (cmd.printJournalEntry a0 follow) as [events [err|]]; simpl in Hev.
    + eexists _, 1. split; [reflexivity|]. split; [by right|].
      split; [|split; [done|split; [|split; [done|]]]].
      * intros _. exists events, err. split; [done|].
        eapply Forall_impl; [exact Hev|]. by intros ev [H1 _].
      * intros _ fl [Hin|Hin]%elem_of_app.
        -- rewrite Forall_forall in Hev. destruct (Hev _ Hin) as [_ H2]. by apply (H2 fl).
        -- apply list_elem_of_singleton in Hin. discriminate.
      * intros arg rest e Harg Ha. by injection (Hbad arg rest e Harg Ha) as -> ->.
    + eexists _, 0. split; [reflexivity|]. split; [by left|].
      split; [done|]. split; [|split; [|split; [done|]]].
      * intros _. eapply Forall_impl; [exact Hev|]. by intros ev [H1 _].
      * intros _ fl Hin. rewrite Forall_forall in Hev.
        destruct (Hev _ Hin) as [_ H2]. by apply (H2 fl).
      * intros arg rest e Harg Ha. discriminate (Hbad arg rest e Harg Ha).
Qed.

Lemma historyMain_exit_code_witness :
  cmd.historyMain (client := two_commands) (Ok true) ["1x"] =
  Returns ([cmd.ErrPrintf cmd.errFormat (strconv.errSyntax "1x")], 1).
Proof.
  destruct (historyMain_exit_code (client := two_commands) true ["1x"])
    as (events & code & Hrun & _ & _ & _ & _ & _ & Hbad).
  destruct (Hbad "1x" [] (strconv.errSyntax "1x") eq_refl eq_refl) as [Hev Hcode].
  rewrite Hev, Hcode in Hrun. exact Hrun.
Defined.

(** X17. When the daemon gives the history, [printHistory] asks for it
    once, prints one line for each entry received, in order, and
    returns no error.  The line of the entry at position [k] carries
    the number [k + 1], the start of the command to the minute, as date
    and clock of its own location, and the description.  The numbers
    are set in a column as wide as the decimal form of the number of
    entries queued when the command starts; a number longer than that
    is written in full.  The starts are taken within [2^62] seconds of
    the year 1. *)
Theorem history_rows
    {client : cmd.Client} (follow : bool) (history : cmd.Channel) :
  cmd.History follow = Ok history ->
  Z.of_nat (length (cmd.received history)) < 2 ^ 63 ->
  Forall (fun item => cmd.formattable (cmd.Start item) = true) (cmd.received history) ->
  let width := String.length (strconv.Itoa (Z.of_nat (cmd.queued history))) in
  exists rows,
    cmd.printHistory follow = (cmd.AskHistory follow :: rows, None) /\
    length rows = length (cmd.received history) /\
    (forall k item, cmd.received history !! k = Some item ->
       rows !! k =
       Some (cmd.Stdout (cmd.fmt_d width (Z.of_nat k + 1) +:+ "  " +:+
                         cmd.Format_minute (cmd.Start item) +:+ "  " +:+
                         cmd.Description item +:+ String "010" EmptyString))) /\
    (forall n, String.length (cmd.fmt_d width n) =
               Nat.max width (String.length (strconv.Itoa n))).
Proof.
  intros Hh Hlen _ width. unfold cmd.printHistory. rewrite Hh. cbv zeta.
  eexists. split; [reflexivity|]. split; [apply print_rows_length|]. split.
  - intros k item Hk. rewrite (print_rows_lookup _ _ 0 k item) by (done || lia).
    reflexivity.
  - intros n. apply fmt_d_length.
Qed.

Lemma history_rows_witness :
  exists rows,
    cmd.printHistory (client := two_commands) false = (cmd.AskHistory false :: rows, None) /\
    rows !! 1%nat = Some (cmd.Stdout (String.append "2  2019-03-01 02:01  cat /aws/x"
                                        (String "010" EmptyString))).
Proof.
  destruct (history_rows (client := two_commands) false
              (cmd.mkChannel 2
                 [cmd.mkActivity (cmd.mkLocatedTime (time.Unix 1551434400 0) 0) "ls /aws";
                  cmd.mkActivity (cmd.mkLocatedTime (time.Unix 1551434460 0) (-28800))
                    "cat /aws/x"]))
    as (rows & Hp & _ & Hrow & _);
    [reflexivity | simpl; lia | repeat constructor |].
  exists rows. split; [exact Hp|].
  exact (Hrow 1%nat
           (cmd.mkActivity (cmd.mkLocatedTime (time.Unix 1551434460 0) (-28800)) "cat /aws/x")
           eq_refl).
Defined.
